(** * veendor: the install-resolution engine (src/lib/install/index.js)

    A shallow embedding of [install], [tryOlderBundles], [checkNodeModules],
    [readPackageFiles], [pullBackends], [pullOlderBundle], [installDiff] and
    [npmInstallAll].  Promise chains become a state-and-error monad; every
    call that leaves the module (file system, backends, git, npm, rsync) is
    answered by an environment that may look at all calls made so far, and is
    appended to a trace. *)

From stdpp Require Import gmap strings list fin_maps.

(* set_solver clears hypotheses that are sometimes already gone. *)
Set Warnings "-clear-no-such-hyp".

(** ** Data model *)

(** A dependency map of package.json: package name to version specifier. *)
Abbreviation Deps := (gmap string string).

Record PkgJson := {
  dependencies : Deps;
  devDependencies : Deps;
}.

(** A parsed lockfile is opaque to the engine; it is kept as its text. *)
Definition Json := string.

(** An entry of [config.backends]. *)
Record Backend := {
  alias : string;
  push : bool;
  pushMayFail : bool;
}.

#[global] Instance Backend_eq_dec : EqDecision Backend.
Proof. solve_decision. Defined.

(** A bundle hash as the code passes it around: [null|string]. *)
Abbreviation Hash := (option string).

(** The part of [config] that install only reads.  [config.useGitHistory]
    is written by [pullOlderBundle] and lives in [State]. *)
Record Config := {
  backends : list Backend;
  fallbackToNpm : bool;
  packageHash : string;
}.

(** ** Errors *)

(** What a collaborator outside this module can reject with. *)
Inductive ext_error :=
  | BundleNotFoundError
  | BundleAlreadyExistsError
  | ENOENT (mentionsPkgJson : bool)
  | NotAGitRepoError
  | TooOldRevisionError
  | OtherError (msg : string).

(** Everything a promise of this module can reject with: the three classes
    declared at the end of index.js, [errors.RePullNeeded], and what the
    runtime throws. *)
Inductive error :=
  | Ext (e : ext_error)
  | RePullNeeded
  | BundlesNotFoundError
  | PkgJsonNotFoundError
  | NodeModulesAlreadyExistError
  | AssertionError
  | TypeError
  | SyntaxError
  | PlainError.

Inductive result (A : Type) :=
  | Ok (a : A)
  | Err (e : error).
Arguments Ok {A} a.
Arguments Err {A} e.

(** [error instanceof errors.BundleNotFoundError] *)
Definition isBundleNotFound (e : error) : bool :=
  match e with Ext BundleNotFoundError => true | _ => false end.

(** [error instanceof BundlesNotFoundError] *)
Definition isBundlesNotFound (e : error) : bool :=
  match e with BundlesNotFoundError => true | _ => false end.

(** [error instanceof errors.RePullNeeded] *)
Definition isRePullNeeded (e : error) : bool :=
  match e with RePullNeeded => true | _ => false end.

(** [error.code === 'ENOENT' && error.message.indexOf('package.json') !== -1] *)
Definition isPkgJsonENOENT (e : error) : bool :=
  match e with Ext (ENOENT true) => true | _ => false end.

(** ** Calls that leave the module *)

Inductive call :=
  | RsyncAvailable
  | AccessNodeModules
  | RemoveNodeModules
  | AwaitClearNodeModules
  | ReadPkgJson
  | ReadLockfile (path : string)
  | CreateCleanCwd
  | CreateCleanCacheDir (b : Backend)
  | RestoreCWD
  | Pull (b : Backend) (hash : Hash)
  | SyncDirs
  | Move
  | Push (b : Backend) (hash : Hash)
  | IsGitRepo
  | OlderRevision (age : nat)
  | NpmInstall (deps : Deps)
  | NpmUninstall (pkgs : list string)
  | NpmInstallAll.

#[global] Instance call_eq_dec : EqDecision call.
Proof. solve_decision. Defined.

(** The world around one process.  [run tr c] is how call [c] settles when
    the calls in [tr] were made before it: [None] resolves, [Some e] rejects
    with [e]. *)
Record Env := {
  run : list call → call → option ext_error;
  rsyncProbe : list call → bool;
  pkgJsonFile : list call → string;
  lockfileFile : list call → string;
  jsonParse : string → option Json;
  parsePkgJson : string → ext_error + PkgJson;
  calcHash : PkgJson → option Json → string → string;
  gitHistory : list (string * option string);
}.

(** The calls of the first pass that check and read the working tree. *)
Definition isFreshnessCall (c : call) : bool :=
  match c with
  | RsyncAvailable | AccessNodeModules | RemoveNodeModules
  | ReadPkgJson | ReadLockfile _ => true
  | _ => false
  end.

(** Mutable state shared by all calls in one process: the trace, the
    [useGitHistory.depth] field of the caller's config object ([None]: no
    [useGitHistory]), and the two module-level [let]s. *)
Record State := {
  trace : list call;
  useGitHistory : option nat;
  clearNodeModulesPromise : option (option ext_error);
  rsyncAvailable : bool;
}.

Definition log (c : call) (s : State) : State :=
  {| trace := trace s ++ [c];
     useGitHistory := useGitHistory s;
     clearNodeModulesPromise := clearNodeModulesPromise s;
     rsyncAvailable := rsyncAvailable s |}.

Definition set_rsyncAvailable (v : bool) (s : State) : State :=
  {| trace := trace s;
     useGitHistory := useGitHistory s;
     clearNodeModulesPromise := clearNodeModulesPromise s;
     rsyncAvailable := v |}.

Definition set_clearNodeModulesPromise (p : option ext_error) (s : State) : State :=
  {| trace := trace s;
     useGitHistory := useGitHistory s;
     clearNodeModulesPromise := Some p;
     rsyncAvailable := rsyncAvailable s |}.

Definition set_depth (d : nat) (s : State) : State :=
  {| trace := trace s;
     useGitHistory := Some d;
     clearNodeModulesPromise := clearNodeModulesPromise s;
     rsyncAvailable := rsyncAvailable s |}.

(** ** The promise monad *)

Definition M (A : Type) : Type := State → result A * State.

Definition ret {A} (a : A) : M A := λ s, (Ok a, s).
Definition reject {A} (e : error) : M A := λ s, (Err e, s).
Definition bind {A B} (m : M A) (k : A → M B) : M B :=
  λ s, match m s with
       | (Ok a, s') => k a s'
       | (Err e, s') => (Err e, s')
       end.

Notation "'let!' x ':=' m 'in' k" := (bind m (λ x, k))
  (at level 10, x name, m at level 100, k at level 200).
Notation "m ;;; k" := (bind m (λ _, k))
  (at level 90, right associativity).

Section Install.
Context (E : Env).

(** One asynchronous call: logged, then settled by the environment. *)
Definition exec (c : call) : M unit :=
  λ s, match run E (trace s) c with
       | None => (Ok tt, log c s)
       | Some e => (Err (Ext e), log c s)
       end.

(** [helpers.restoreCWD()] is synchronous. *)
Definition restoreCWD : M unit := λ s, (Ok tt, log RestoreCWD s).

(** ** pullBackends *)

Record PullInfo := { missingBackends : list Backend }.

(** [.then(() => clearNodeModulesPromise)]: waits when the variable holds a
    promise, passes at once when it is undefined. *)
Definition awaitClearNodeModules : M unit :=
  λ s, match clearNodeModulesPromise s with
       | None => (Ok tt, s)
       | Some None => (Ok tt, log AwaitClearNodeModules s)
       | Some (Some e) => (Err (Ext e), log AwaitClearNodeModules s)
       end.

(** The then-chain of one attempt (index.js 227-245). *)
Definition pullAttempt (hash : Hash) (b : Backend) : M unit :=
  exec CreateCleanCwd ;;;
  exec (CreateCleanCacheDir b) ;;;
  exec (Pull b hash) ;;;
  awaitClearNodeModules ;;;
  restoreCWD ;;;
  (λ s, if rsyncAvailable s then exec SyncDirs s else exec Move s).

(** [pullBackends(hash, config, backendIndex)].  [rest] is the part of
    [config.backends] from [backendIndex] on; it is empty exactly when
    [config.backends[backendIndex]] is undefined. *)
Fixpoint pullBackendsFrom (hash : Hash) (config : Config)
    (rest : list Backend) (backendIndex : nat) : M PullInfo :=
  match rest with
  | [] => reject BundlesNotFoundError
  | b :: rest' =>
      λ s, match pullAttempt hash b s with
           | (Ok _, s1) =>
               (Ok {| missingBackends := take backendIndex (backends config) |}, s1)
           | (Err error, s1) =>
               let s2 := log RestoreCWD s1 in
               if isBundleNotFound error
               then pullBackendsFrom hash config rest' (S backendIndex) s2
               else (Err error, s2)
           end
  end.

Definition pullBackends (hash : Hash) (config : Config) (backendIndex : nat)
  : M PullInfo :=
  pullBackendsFrom hash config (drop backendIndex (backends config))
    backendIndex.

(** The chain, started at [backendIndex = from] in state [s], misses
    (BundleNotFound) at every index from [from] up to [k - 1] and succeeds at
    index [k], ending in state [s']. *)
Inductive succeedsAt (hash : Hash) (config : Config) (k : nat)
  : nat → State → State → Prop :=
  | succeedsAt_hit b s s' :
      backends config !! k = Some b →
      pullAttempt hash b s = (Ok tt, s') →
      succeedsAt hash config k k s s'
  | succeedsAt_miss from b s s1 s' :
      backends config !! from = Some b →
      pullAttempt hash b s = (Err (Ext BundleNotFoundError), s1) →
      succeedsAt hash config k (S from) (log RestoreCWD s1) s' →
      succeedsAt hash config k from s s'.

(** Every backend from index [from] on reports BundleNotFound. *)
Inductive exhausted (hash : Hash) (config : Config)
  : nat → State → State → Prop :=
  | exhausted_end from s :
      backends config !! from = None →
      exhausted hash config from s s
  | exhausted_miss from b s s1 s' :
      backends config !! from = Some b →
      pullAttempt hash b s = (Err (Ext BundleNotFoundError), s1) →
      exhausted hash config (S from) (log RestoreCWD s1) s' →
      exhausted hash config from s s'.

(** ** checkNodeModules and readPackageFiles *)

(** [checkNodeModules(force)].  The value is what the returned promise is
    fulfilled with.  When the directory exists, [force] is set and rsync is
    not available, the fulfilment handler returns the promise of
    [fsExtra.remove(nodeModules)]; a promise returned from a then-handler is
    adopted by the chain, which therefore settles as the removal does and is
    fulfilled with the removal's value, undefined. *)
Definition checkNodeModules (force : bool) : M (option (option ext_error)) :=
  λ s, let s1 := log AccessNodeModules s in
       match run E (trace s) AccessNodeModules with
       | Some _ => (Ok None, s1)
       | None =>
           if negb force then (Err NodeModulesAlreadyExistError, s1)
           else if rsyncAvailable s1 then (Ok None, s1)
           else match exec RemoveNodeModules s1 with
                | (Ok _, s2) => (Ok None, s2)
                | (Err e, s2) => (Err e, s2)
                end
       end.

(** [readPackageFiles(pkgJsonPath, lockfilePath)]: both reads are issued,
    then [Promise.all] settles. *)
Definition readPackageFiles (lockfilePath : option string)
  : M (string * option string) :=
  λ s, let s1 := log ReadPkgJson s in
       let r1 := run E (trace s) ReadPkgJson in
       match lockfilePath with
       | None =>
           match r1 with
           | Some e => (Err (Ext e), s1)
           | None => (Ok (pkgJsonFile E (trace s), None), s1)
           end
       | Some path =>
           let s2 := log (ReadLockfile path) s1 in
           match r1, run E (trace s1) (ReadLockfile path) with
           | Some e, _ => (Err (Ext e), s2)
           | None, Some e => (Err (Ext e), s2)
           | None, None =>
               (Ok (pkgJsonFile E (trace s), Some (lockfileFile E (trace s1))), s2)
           end
       end.

(** ** pullOlderBundle *)

(** Modelled from the spec: gitWrapper.olderRevision (lib/commandWrappers is
    not among the sources).  The files at the revision [age] commits back in
    the history of the manifest; [TooOldRevisionError] when the history is
    shorter (test/unit/gitWrapper.test.js). *)
Definition olderRevision (lockfile : option string) (age : nat)
  : M (string * option string) :=
  exec (OlderRevision age) ;;;
  (λ s, match gitHistory E !! (age - 1) with
        | Some files => (Ok files, s)
        | None => (Err (Ext TooOldRevisionError), s)
        end).

(** [if (lockfileString) newLockfileContents = JSON.parse(lockfileString)]:
    an absent or empty string is falsy. *)
Definition parseOlderLockfile (lockfileString : option string)
  : result (option Json) :=
  match lockfileString with
  | None => Ok None
  | Some str =>
      if decide (str = EmptyString) then Ok None
      else match jsonParse E str with
           | Some j => Ok (Some j)
           | None => Err SyntaxError
           end
  end.

(** [config.useGitHistory.depth++] *)
Definition incrementDepth (s : State) : State :=
  match useGitHistory s with
  | Some d => set_depth (S d) s
  | None => s
  end.

(** The then-chain of one revision (index.js 275-303): how it settles, and
    the value of the local [newHash] at that moment. *)
Definition revisionAttempt (config : Config) (prevHash : Hash)
    (lockfile : option string) (historyIndex : nat)
  : State → (result PkgJson * Hash) * State :=
  λ s,
  match olderRevision lockfile (historyIndex + 1) s with
  | (Err e, s1) => ((Err e, prevHash), s1)
  | (Ok (pkgJsonString, lockfileString), s1) =>
      match parseOlderLockfile lockfileString with
      | Err e => ((Err e, prevHash), s1)
      | Ok newLockfileContents =>
          match parsePkgJson E pkgJsonString with
          | inl e => ((Err (Ext e), prevHash), s1)
          | inr pkgJson =>
              let hash :=
                Some (calcHash E pkgJson newLockfileContents (packageHash config)) in
              if decide (hash = prevHash)
              then ((Err PlainError, prevHash), incrementDepth s1)
              else match pullBackends hash config 0 s1 with
                   | (Ok _, s2) => ((Ok pkgJson, hash), s2)
                   | (Err e, s2) => ((Err e, hash), s2)
                   end
          end
      end
  end.

(** [pullOlderBundle(config, prevHash, lockfile, historyIndex)].  The
    recursion of the source is not structural; [fuel] bounds its depth and
    [None] means the bound was hit. *)
Fixpoint pullOlderBundleFuel (fuel : nat) (config : Config) (prevHash : Hash)
    (lockfile : option string) (historyIndex : nat) (s : State)
  : option (result PkgJson * State) :=
  match fuel with
  | 0 => None
  | S fuel' =>
      match useGitHistory s with
      | None => Some (Err TypeError, s)
      | Some depth =>
          if decide (depth < historyIndex)
          then Some (Err BundlesNotFoundError, s)
          else match revisionAttempt config prevHash lockfile historyIndex s with
               | ((Ok oldPkgJson, _), s1) => Some (Ok oldPkgJson, s1)
               | ((Err _, newHash), s1) =>
                   pullOlderBundleFuel fuel' config newHash lockfile
                     (S historyIndex) s1
               end
      end
  end.

(** The manifest at history index [historyIndex] and the fingerprint the
    walker recomputes for it, when the revision exists and parses. *)
Definition revisionHash (config : Config) (historyIndex : nat)
  : option (PkgJson * string) :=
  match gitHistory E !! historyIndex with
  | Some (pkgJsonString, lockfileString) =>
      match parseOlderLockfile lockfileString, parsePkgJson E pkgJsonString with
      | Ok newLockfileContents, inr pkgJson =>
          Some (pkgJson,
                calcHash E pkgJson newLockfileContents (packageHash config))
      | _, _ => None
      end
  | None => None
  end.

(** What the walker makes of one revision: the parsed manifest and its
    recomputed fingerprint, when both files parse. *)
Definition parseRevision (config : Config) (rev : string * option string)
  : option (PkgJson * string) :=
  match parseOlderLockfile rev.2, parsePkgJson E rev.1 with
  | Ok newLockfileContents, inr pkgJson =>
      Some (pkgJson,
            calcHash E pkgJson newLockfileContents (packageHash config))
  | _, _ => None
  end.

(** Past the end of the history every request to git fails and takes one
    slot of the budget. *)
Fixpoint drain (budget age : nat) (s : State) : State :=
  match budget with
  | 0 => s
  | S budget' => drain budget' (S age) (log (OlderRevision age) s)
  end.

(** The history walk in the words of the spec (4.E), written over the
    revisions still to be read and a budget of slots, not over the code's
    index and depth bound.  A revision whose fingerprint equals
    [lastFingerprint] takes no slot: the depth in the config is raised by
    one, no backend is asked, and [lastFingerprint] stays.  Every other
    revision takes one slot: one that cannot be read or parsed does nothing
    more; one with another fingerprint becomes [lastFingerprint] and the pull
    chain runs for it, ending the walk with the older manifest when it
    resolves.  An empty budget ends the walk with BundlesNotFound. *)
Fixpoint walkHistory (config : Config) (revs : list (string * option string))
    (budget depth : nat) (lastFingerprint : Hash) (historyIndex : nat)
    (s : State) {struct revs} : result PkgJson * State :=
  match revs, budget with
  | _, 0 => (Err BundlesNotFoundError, s)
  | [], S _ => (Err BundlesNotFoundError, drain budget (historyIndex + 1) s)
  | rev :: revs', S budget' =>
      let s1 := log (OlderRevision (historyIndex + 1)) s in
      match run E (trace s) (OlderRevision (historyIndex + 1)),
            parseRevision config rev with
      | None, Some (pkgJson, hash) =>
          if decide (Some hash = lastFingerprint)
          then walkHistory config revs' budget (S depth) lastFingerprint
                 (S historyIndex) (set_depth (S depth) s1)
          else match pullBackends (Some hash) config 0 s1 with
               | (Ok _, s2) => (Ok pkgJson, s2)
               | (Err _, s2) =>
                   walkHistory config revs' budget' depth (Some hash)
                     (S historyIndex) s2
               end
      | _, _ =>
          walkHistory config revs' budget' depth lastFingerprint
            (S historyIndex) s1
      end
  end.

(** The state after [k] revisions from [historyIndex] on were read and found
    unchanged: [k] calls to git, the depth raised by [k]. *)
Definition skipRevisions (historyIndex k depth : nat) (s : State) : State :=
  {| trace := trace s ++ (OlderRevision <$> seq (historyIndex + 1) k);
     useGitHistory := Some (depth + k);
     clearNodeModulesPromise := clearNodeModulesPromise s;
     rsyncAvailable := rsyncAvailable s |}.

(** Fuel that always suffices from [historyIndex = 0]
    (see [pullOlderBundleFuel_enough]). *)
Definition walkFuel (s : State) : nat :=
  length (gitHistory E) + default 0 (useGitHistory s) + 2.

Definition pullOlderBundle (config : Config) (prevHash : Hash)
    (lockfile : option string) : M PkgJson :=
  λ s, match pullOlderBundleFuel (walkFuel s) config prevHash lockfile 0 s with
       | Some r => r
       | None => (Err BundlesNotFoundError, s)
       end.

(** ** installDiff *)

(** [Object.assign({}, pkgJson.devDependencies, pkgJson.dependencies)] *)
Definition allDeps (pkgJson : PkgJson) : Deps :=
  dependencies pkgJson ∪ devDependencies pkgJson.

(** One key of deep-object-diff's [diff] on two flat maps of strings:
    [Some None] is a key bound to undefined. *)
Definition diffEntry (l r : option string) : option (option string) :=
  match l, r with
  | Some _, None => Some None
  | None, Some v => Some (Some v)
  | Some u, Some v => if decide (u = v) then None else Some (Some v)
  | None, None => None
  end.

Definition objectDiff (lhs rhs : Deps) : gmap string (option string) :=
  merge diffEntry lhs rhs.

(** [_.omitBy(depsDiff, _.isUndefined)] *)
Definition omitUndefined (depsDiff : gmap string (option string)) : Deps :=
  omap id depsDiff.

(** [_.keys(_.pickBy(depsDiff, _.isUndefined))], as the set of these keys:
    the list is in the order of the map, where the code has the key order of
    the old merged object. *)
Definition keysUndefined (depsDiff : gmap string (option string)) : list string :=
  (map_to_list (filter (λ kv, kv.2 = None) depsDiff)).*1.

Definition installDiff (oldPkgJson : PkgJson) (newPkgJson : option PkgJson)
  : M unit :=
  match newPkgJson with
  | None => reject TypeError
  | Some newPkgJson =>
      let allDepsOld := allDeps oldPkgJson in
      let allDepsNew := allDeps newPkgJson in
      let depsDiff := objectDiff allDepsOld allDepsNew in
      let depsToInstall := omitUndefined depsDiff in
      let depsToUninstall := keysUndefined depsDiff in
      if negb (size depsToInstall =? 0) then
        exec (NpmInstall depsToInstall) ;;;
        (if negb (length depsToUninstall =? 0)
         then exec (NpmUninstall depsToUninstall)
         else ret tt)
      else if negb (length depsToUninstall =? 0) then
        exec (NpmUninstall depsToUninstall)
      else reject AssertionError
  end.

(** The calls to npm that the spec asks of the delta installer, for given
    sets and a given trace before it: install first, uninstall after it
    resolved. *)
Definition reconcileCalls (tr : list call) (toInstall : Deps)
    (toUninstall : list string) : list call :=
  if decide (toInstall = ∅) then
    if decide (toUninstall = []) then [] else [NpmUninstall toUninstall]
  else
    NpmInstall toInstall ::
    match run E tr (NpmInstall toInstall) with
    | Some _ => []
    | None =>
        if decide (toUninstall = []) then [] else [NpmUninstall toUninstall]
    end.

Definition npmInstallAll : M unit := exec NpmInstallAll.

Definition tryOlderBundles (config : Config) (newPkgJson : option PkgJson)
    (newPkgJsonHash : Hash) (lockfile : option string) : M unit :=
  exec IsGitRepo ;;;
  let! oldPkgJson := pullOlderBundle config newPkgJsonHash lockfile in
  installDiff oldPkgJson newPkgJson.

(** ** pushBackends *)

(** Modelled from the spec: pushBackends (lib/install/pushBackends is not
    among the sources).  For each missed backend whose [push] flag is set,
    push; on BundleAlreadyExists surface it as fatal when [rePull] is already
    set and surface RePullNeeded otherwise; on another failure continue when
    [pushMayFail] is set and propagate otherwise. *)
Fixpoint pushBackends (backendConfigs : list Backend) (hash : Hash)
    (rePull : bool) : M unit :=
  match backendConfigs with
  | [] => ret tt
  | b :: others =>
      if push b then
        λ s, match run E (trace s) (Push b hash) with
             | None => pushBackends others hash rePull (log (Push b hash) s)
             | Some BundleAlreadyExistsError =>
                 if rePull
                 then (Err (Ext BundleAlreadyExistsError), log (Push b hash) s)
                 else (Err RePullNeeded, log (Push b hash) s)
             | Some e =>
                 if pushMayFail b
                 then pushBackends others hash rePull (log (Push b hash) s)
                 else (Err (Ext e), log (Push b hash) s)
             end
      else pushBackends others hash rePull
  end.

(** ** install *)

Record InstallArgs := {
  force : bool;
  rePull : bool;
  rePullHash : Hash;
  lockfile : option string;
}.

(** The chain assigned to [pkgJsonPromise] on a first pass (index.js 53-83):
    fulfilled with the values it leaves in [newPkgJson] and
    [newPkgJsonHash]. *)
Definition readAndHash (config : Config) (a : InstallArgs)
  : M (PkgJson * string) :=
  (λ s, match run E (trace s) RsyncAvailable with
        | Some e => (Err (Ext e), log RsyncAvailable s)
        | None =>
            (Ok tt, set_rsyncAvailable (rsyncProbe E (trace s))
                      (log RsyncAvailable s))
        end) ;;;
  let! _clearNodeModulesPromise := checkNodeModules (force a) in
  (λ s, (Ok tt, match _clearNodeModulesPromise with
                | Some p => set_clearNodeModulesPromise p s
                | None => s
                end)) ;;;
  let! files := readPackageFiles (lockfile a) in
  match (match files.2 with
         | Some lockfileBuf => Some <$> jsonParse E lockfileBuf
         | None => Some None
         end) with
  | None => reject SyntaxError
  | Some newLockfileContents =>
      match parsePkgJson E files.1 with
      | inl e => reject (Ext e)
      | inr pkgJson =>
          ret (pkgJson,
               calcHash E pkgJson newLockfileContents (packageHash config))
      end
  end.

(** [config.useGitHistory && config.useGitHistory.depth > 0] *)
Definition useGitHistoryPositive (s : State) : bool :=
  match useGitHistory s with
  | Some depth => negb (depth =? 0)
  | None => false
  end.

(** The rejection handler of both [pushBackends] calls (index.js 126-138 and
    145-157).  [self] is [install]. *)
Definition pushOrRePull
    (self : InstallArgs → State → option (result unit * State))
    (targets : list Backend) (newPkgJsonHash : Hash) (a : InstallArgs)
    (s : State) : option (result unit * State) :=
  match pushBackends targets newPkgJsonHash (rePull a) s with
  | (Ok _, s') => Some (Ok tt, s')
  | (Err error, s') =>
      if isRePullNeeded error
      then self {| force := true; rePull := true;
                   rePullHash := newPkgJsonHash; lockfile := lockfile a |} s'
      else Some (Err error, s')
  end.

(** The arguments of the re-entry that a pass makes, when it makes one. *)
Definition reentryArgs (a : InstallArgs) (hash : Hash) : InstallArgs :=
  {| force := true; rePull := true; rePullHash := hash;
     lockfile := lockfile a |}.

(** The values of the locals [newPkgJson], [newPkgJsonHash],
    [missingBackends] and [done] of one pass. *)
Record Locals := {
  newPkgJson : option PkgJson;
  newPkgJsonHash : Hash;
  missing : list Backend;
  done : bool;
}.

(** [pkgJsonPromise] (index.js 48-84). *)
Definition pkgJsonPromise (config : Config) (a : InstallArgs) (s : State)
  : result unit * Locals * State :=
  if rePull a
  then (Ok tt, {| newPkgJson := None; newPkgJsonHash := rePullHash a;
                  missing := []; done := false |}, s)
  else match readAndHash config a s with
       | (Ok (pkgJson, hash), s') =>
           (Ok tt, {| newPkgJson := Some pkgJson; newPkgJsonHash := Some hash;
                      missing := []; done := false |}, s')
       | (Err e, s') =>
           (Err e, {| newPkgJson := None; newPkgJsonHash := None;
                      missing := []; done := false |}, s')
       end.

(** [.then(() => pullBackends(newPkgJsonHash, config).then(info => ...))]
    (index.js 87-92). *)
Definition thenPull (config : Config) (st : result unit * Locals * State)
  : result unit * Locals * State :=
  match st with
  | (Err e, l, s) => (Err e, l, s)
  | (Ok _, l, s) =>
      match pullBackends (newPkgJsonHash l) config 0 s with
      | (Ok info, s') =>
          (Ok tt, {| newPkgJson := newPkgJson l;
                     newPkgJsonHash := newPkgJsonHash l;
                     missing := missingBackends info; done := true |}, s')
      | (Err e, s') => (Err e, l, s')
      end
  end.

(** The first [.catch] (index.js 93-114). *)
Definition catchBundlesNotFound (config : Config) (a : InstallArgs)
    (st : result unit * Locals * State) : result unit * Locals * State :=
  match st with
  | (Ok _, l, s) => (Ok tt, l, s)
  | (Err error, l, s) =>
      if isBundlesNotFound error then
        if useGitHistoryPositive s then
          let '(r, s') :=
            tryOlderBundles config (newPkgJson l) (newPkgJsonHash l)
              (lockfile a) s in
          (r, l, s')
        else if fallbackToNpm config then
          let '(r, s') := npmInstallAll s in (r, l, s')
        else
          (Err error, {| newPkgJson := newPkgJson l;
                         newPkgJsonHash := newPkgJsonHash l;
                         missing := missing l; done := true |}, s)
      else if isPkgJsonENOENT error then (Err PkgJsonNotFoundError, l, s)
      else (Err error, l, s)
  end.

(** The second [.catch] (index.js 115-121). *)
Definition catchFallbackToNpm (config : Config)
    (st : result unit * Locals * State) : result unit * Locals * State :=
  match st with
  | (Ok _, l, s) => (Ok tt, l, s)
  | (Err error, l, s) =>
      if isBundlesNotFound error && fallbackToNpm config
      then let '(r, s') := npmInstallAll s in (r, l, s')
      else (Err error, l, s)
  end.

(** The last [.then] (index.js 122-158). *)
Definition thenPush
    (self : InstallArgs → State → option (result unit * State))
    (config : Config) (a : InstallArgs) (st : result unit * Locals * State)
  : option (result unit * State) :=
  match st with
  | (Err e, _, s) => Some (Err e, s)
  | (Ok _, l, s) =>
      if done l then
        if negb (length (missing l) =? 0)
        then pushOrRePull self (missing l) (newPkgJsonHash l) a s
        else Some (Ok tt, s)
      else pushOrRePull self (backends config) (newPkgJsonHash l) a s
  end.

(** One run of the body of [install], with the recursive call abstracted. *)
Definition installPass
    (self : InstallArgs → State → option (result unit * State))
    (config : Config) (a : InstallArgs) (s : State)
  : option (result unit * State) :=
  thenPush self config a
    (catchFallbackToNpm config
       (catchBundlesNotFound config a
          (thenPull config (pkgJsonPromise config a s)))).

(** [install({force, config, rePull, rePullHash, lockfile})]; [fuel] bounds
    the nesting of re-entries, [None] means the bound was hit. *)
Fixpoint install (fuel : nat) (config : Config) (a : InstallArgs) (s : State)
  : option (result unit * State) :=
  match fuel with
  | 0 => None
  | S fuel' => installPass (λ a' s', install fuel' config a' s') config a s
  end.

End Install.

(** * Vocabulary of the properties *)

(** ** What a computation leaves alone *)

(** [m] takes every state to one related to it by [R], however it settles. *)
Definition respects {A} (R : relation State) (m : M A) : Prop :=
  ∀ s, R s (m s).2.

(** Only calls satisfying [P] are added to the trace. *)
Definition onlyCalls (P : call → Prop) : relation State :=
  λ s s', ∃ calls, trace s' = trace s ++ calls ∧ Forall P calls.

(** The config object and the module-level variables are untouched. *)
Definition sameVars : relation State :=
  λ s s', useGitHistory s' = useGitHistory s ∧
          clearNodeModulesPromise s' = clearNodeModulesPromise s ∧
          rsyncAvailable s' = rsyncAvailable s.

(** [config.useGitHistory] stays present or absent, and a present depth
    never gets smaller. *)
Definition depthGrows : relation State :=
  λ s s', match useGitHistory s, useGitHistory s' with
          | Some d, Some d' => d ≤ d'
          | None, None => True
          | _, _ => False
          end.

(** ** Reading a trace *)

(** The pushes of a trace, in order. *)
Definition pushesOf (tr : list call) : list (Backend * Hash) :=
  omap (λ c, match c with Push b h => Some (b, h) | _ => None end) tr.

(** The pulls of a trace, in order. *)
Definition pullsOf (tr : list call) : list (Backend * Hash) :=
  omap (λ c, match c with Pull b h => Some (b, h) | _ => None end) tr.

(** The calls to npm of a trace, in order. *)
Definition npmCallsOf (tr : list call) : list call :=
  omap (λ c, match c with
             | NpmInstall _ | NpmUninstall _ | NpmInstallAll => Some c
             | _ => None
             end) tr.

(** The ages asked of git in a trace, in order. *)
Definition revisionsOf (tr : list call) : list nat :=
  omap (λ c, match c with OlderRevision age => Some age | _ => None end) tr.

(** Whether, after the calls of a trace, the process is still in a scratch
    directory entered by [helpers.createCleanCwd] and not left again by
    [helpers.restoreCWD]. *)
Definition inCleanCwd (tr : list call) : bool :=
  foldl (λ inside c, match c with
                     | CreateCleanCwd => true
                     | RestoreCWD => false
                     | _ => inside
                     end) false tr.

(** The calls to git. *)
Definition isGitCall (c : call) : bool :=
  match c with
  | IsGitRepo | OlderRevision _ => true
  | _ => false
  end.

(** No call to git, and the depth as it was. *)
Definition noGit : relation State :=
  λ s s', useGitHistory s' = useGitHistory s ∧
          onlyCalls (λ c, isGitCall c = false) s s'.

(** * Scenarios *)

Definition B0 : Backend := {| alias := "B0"; push := true; pushMayFail := false |}.
Definition B1 : Backend := {| alias := "B1"; push := false; pushMayFail := false |}.

Definition PKGJSON : PkgJson :=
  {| dependencies := list_to_map [("foo", "2.2.8"); ("c", "2.2.9")];
     devDependencies := list_to_map [("baz", "6.6.6")] |}.

Definition fakePkgJson1 : PkgJson :=
  {| dependencies := list_to_map [("foo", "2.2.8"); ("c", "1.0.0")];
     devDependencies := list_to_map [("baz", "6.6.6")] |}.

Definition fakePkgJson2 : PkgJson :=
  {| dependencies := list_to_map [("foo", "2.2.8"); ("c", "2.1.8")];
     devDependencies := list_to_map [("baz", "6.6.6")] |}.

(** S4: the current manifest no longer has package c. *)
Definition PKGJSONwithoutC : PkgJson :=
  {| dependencies := list_to_map [("foo", "2.2.8")];
     devDependencies := list_to_map [("baz", "6.6.6")] |}.

(** The same package, first as a development dependency, then moved to the
    runtime dependencies. *)
Definition devA : PkgJson :=
  {| dependencies := ∅; devDependencies := {["a" := "1.0.0"]} |}.

Definition runtimeA : PkgJson :=
  {| dependencies := {["a" := "1.0.0"]}; devDependencies := ∅ |}.

(** Manifest files hold the name of their manifest. *)
Definition parseScenario (str : string) : ext_error + PkgJson :=
  if String.eqb str "PKGJSON" then inr PKGJSON
  else if String.eqb str "fakePkgJson1" then inr fakePkgJson1
  else if String.eqb str "fakePkgJson2" then inr fakePkgJson2
  else if String.eqb str "PKGJSONwithoutC" then inr PKGJSONwithoutC
  else if String.eqb str "runtimeA" then inr runtimeA
  else if String.eqb str "devA" then inr devA
  else inl (OtherError "invalid package.json").

Definition showDeps (d : Deps) : string :=
  foldr (λ kv acc, kv.1 +:+ "@" +:+ kv.2 +:+ ";" +:+ acc) "" (map_to_list d).

(** A fingerprint that keeps its input readable: the canonical text
    itself. *)
Definition hashScenario (p : PkgJson) (lock : option Json) (salt : string)
  : string :=
  showDeps (dependencies p) +:+ "|" +:+ showDeps (devDependencies p) +:+ "|"
  +:+ default "" lock +:+ "|" +:+ salt.

Definition start (depth : option nat) : State :=
  {| trace := []; useGitHistory := depth;
     clearNodeModulesPromise := None; rsyncAvailable := false |}.

Definition firstPass : InstallArgs :=
  {| force := false; rePull := false; rePullHash := None; lockfile := None |}.

Definition scenarioEnv (run : list call → call → option ext_error)
    (rsync : bool) (manifest : string)
    (history : list (string * option string)) : Env :=
  {| run := run;
     rsyncProbe := λ _, rsync;
     pkgJsonFile := λ _, manifest;
     lockfileFile := λ _, "";
     jsonParse := Some;
     parsePkgJson := parseScenario;
     calcHash := hashScenario;
     gitHistory := history |}.

(** S1: B0 misses, B1 holds the bundle. *)
Definition runS1 (tr : list call) (c : call) : option ext_error :=
  match c with
  | AccessNodeModules => Some (ENOENT false)
  | Pull b h => if decide (b = B0) then Some BundleNotFoundError else None
  | _ => None
  end.

Definition envS1 : Env := scenarioEnv runS1 false "PKGJSON" [].

Definition configS1 : Config :=
  {| backends := [B0; B1]; fallbackToNpm := false; packageHash := "" |}.

Definition PKGJSONHash : Hash := Some (hashScenario PKGJSON None "").

(** S2: no backend holds any bundle. *)
Definition runS2 (tr : list call) (c : call) : option ext_error :=
  match c with
  | AccessNodeModules => Some (ENOENT false)
  | Pull b h => Some BundleNotFoundError
  | _ => None
  end.

Definition envS2 : Env := scenarioEnv runS2 false "PKGJSON" [].

Definition configS2 : Config :=
  {| backends := [B0]; fallbackToNpm := false; packageHash := "" |}.

(** A backend that cannot be reached. *)
Definition runUnreachable (tr : list call) (c : call) : option ext_error :=
  match c with
  | AccessNodeModules => Some (ENOENT false)
  | Pull b h => Some (OtherError "ECONNREFUSED")
  | _ => None
  end.

Definition envUnreachable : Env := scenarioEnv runUnreachable false "PKGJSON" [].

(** S3: the backend holds only the bundle of the second revision back. *)
Definition runS3 (tr : list call) (c : call) : option ext_error :=
  match c with
  | AccessNodeModules => Some (ENOENT false)
  | Pull b h =>
      if decide (h = Some (hashScenario fakePkgJson2 None ""))
      then None else Some BundleNotFoundError
  | _ => None
  end.

Definition envS3 : Env :=
  scenarioEnv runS3 false "PKGJSON"
    [("fakePkgJson1", None); ("fakePkgJson2", None)].

Definition configS3 : Config :=
  {| backends := [B0]; fallbackToNpm := false; packageHash := "" |}.

Definition envS4 : Env :=
  scenarioEnv runS3 false "PKGJSONwithoutC"
    [("fakePkgJson1", None); ("fakePkgJson2", None)].

(** node_modules is there, rsync is not, and no backend holds the bundle. *)
Definition runForcedMiss (tr : list call) (c : call) : option ext_error :=
  match c with
  | Pull b h => Some BundleNotFoundError
  | _ => None
  end.

Definition envForcedMiss : Env := scenarioEnv runForcedMiss false "PKGJSON" [].

(** The revision before HEAD left the manifest as it is; the backend holds
    the bundle of the revision before that. *)
Definition envUnchanged : Env :=
  scenarioEnv runS3 false "PKGJSON"
    [("PKGJSON", None); ("fakePkgJson2", None)].

(** S5: B0 misses until somebody has pushed to it; the push of this process
    comes second and finds the bundle there. *)
Definition runS5 (tr : list call) (c : call) : option ext_error :=
  match c with
  | AccessNodeModules => Some (ENOENT false)
  | Pull b h =>
      if decide (b = B0)
      then if decide (Push B0 h ∈ tr) then None else Some BundleNotFoundError
      else None
  | Push b h => Some BundleAlreadyExistsError
  | _ => None
  end.

Definition envS5 : Env := scenarioEnv runS5 false "PKGJSON" [].

(** A backend that never serves the bundle and never accepts it. *)
Definition runConflict (tr : list call) (c : call) : option ext_error :=
  match c with
  | AccessNodeModules => Some (ENOENT false)
  | Pull b h => if decide (b = B0) then Some BundleNotFoundError else None
  | Push b h => Some BundleAlreadyExistsError
  | _ => None
  end.

Definition envConflict : Env := scenarioEnv runConflict false "PKGJSON" [].

(** The project is not under version control. *)
Definition runNoRepo (tr : list call) (c : call) : option ext_error :=
  match c with
  | AccessNodeModules => Some (ENOENT false)
  | Pull b h => Some BundleNotFoundError
  | IsGitRepo => Some NotAGitRepoError
  | _ => None
  end.

Definition envNoRepo : Env := scenarioEnv runNoRepo false "PKGJSON" [].

Definition configNpm : Config :=
  {| backends := [B0]; fallbackToNpm := true; packageHash := "" |}.

(** S6: node_modules is there, rsync is available. *)
Definition runS6 (tr : list call) (c : call) : option ext_error :=
  match c with
  | Pull b h => if decide (b = B0) then Some BundleNotFoundError else None
  | _ => None
  end.

Definition envS6 : Env := scenarioEnv runS6 true "PKGJSON" [].

Definition forced : InstallArgs :=
  {| force := true; rePull := false; rePullHash := None; lockfile := None |}.

(** The manifest moved package a from devDependencies to dependencies in
    the last revision; the backend holds the bundle from before. *)
Definition runMoved (tr : list call) (c : call) : option ext_error :=
  match c with
  | AccessNodeModules => Some (ENOENT false)
  | Pull b h =>
      if decide (h = Some (hashScenario devA None ""))
      then None else Some BundleNotFoundError
  | _ => None
  end.

Definition envMoved : Env :=
  scenarioEnv runMoved false "runtimeA" [("devA", None)].

Definition secondPass (hash : Hash) : InstallArgs :=
  {| force := true; rePull := true; rePullHash := hash; lockfile := None |}.

(** There is no package.json. *)
Definition runNoManifest (tr : list call) (c : call) : option ext_error :=
  match c with
  | AccessNodeModules => Some (ENOENT false)
  | ReadPkgJson => Some (ENOENT true)
  | _ => None
  end.

Definition envNoManifest : Env := scenarioEnv runNoManifest false "PKGJSON" [].

(** The backend cannot be reached, and there is one older revision. *)
Definition envUnreachableHistory : Env :=
  scenarioEnv runUnreachable false "PKGJSON" [("fakePkgJson1", None)].

(** * Properties *)

#[global] Instance onlyCalls_preorder P : PreOrder (onlyCalls P).
Proof.
  split.
  - intros s. exists []. by rewrite app_nil_r.
  - intros s1 s2 s3 (c1 & H1 & F1) (c2 & H2 & F2). exists (c1 ++ c2).
    rewrite H2, H1, app_assoc. split; [done|]. by apply Forall_app.
Qed.

#[global] Instance sameVars_preorder : PreOrder sameVars.
Proof.
  split.
  - by intros s.
  - intros s1 s2 s3 (H1 & H2 & H3) (H1' & H2' & H3').
    unfold sameVars. by rewrite H1', H2', H3'.
Qed.

#[global] Instance depthGrows_preorder : PreOrder depthGrows.
Proof.
  split.
  - intros s. unfold depthGrows. by destruct (useGitHistory s).
  - intros s1 s2 s3. unfold depthGrows.
    destruct (useGitHistory s1), (useGitHistory s2), (useGitHistory s3);
      try done. lia.
Qed.

Lemma sameVars_depthGrows s s' : sameVars s s' → depthGrows s s'.
Proof.
  intros (H & _). unfold depthGrows. rewrite H.
  by destruct (useGitHistory s).
Qed.

Lemma onlyCalls_log (P : call → Prop) c s : P c → onlyCalls P s (log c s).
Proof. intros HP. exists [c]. split; [done|]. by apply Forall_singleton. Qed.

Lemma onlyCalls_weaken (P Q : call → Prop) s s' :
  (∀ c, P c → Q c) → onlyCalls P s s' → onlyCalls Q s s'.
Proof.
  intros HPQ (calls & Ht & HF). exists calls. split; [done|].
  eapply Forall_impl; eauto.
Qed.

Lemma sameVars_log c s : sameVars s (log c s).
Proof. done. Qed.

Section Respects.
Context (R : relation State) `{!PreOrder R}.

Lemma respects_ret {A} (a : A) : respects R (ret a).
Proof. intros s. reflexivity. Qed.

Lemma respects_reject {A} e : respects R (reject (A:=A) e).
Proof. intros s. reflexivity. Qed.

Lemma respects_bind {A B} (m : M A) (k : A → M B) :
  respects R m → (∀ a, respects R (k a)) → respects R (bind m k).
Proof.
  intros Hm Hk s. unfold bind. specialize (Hm s).
  destruct (m s) as [[a|e] s1]; simpl in *; [|done].
  etrans; [exact Hm|apply Hk].
Qed.

(** When [m s = (r, s')], the relation holds between [s] and [s']. *)
Lemma respects_run {A} (m : M A) s r s' :
  respects R m → m s = (r, s') → R s s'.
Proof. intros Hm Hs. specialize (Hm s). by rewrite Hs in Hm. Qed.

End Respects.

Section Properties.
Context (E : Env).

Lemma exec_respects (R : relation State) c :
  (∀ s, R s (log c s)) → respects R (exec E c).
Proof.
  intros HR s. unfold exec. destruct (run E (trace s) c); apply HR.
Qed.

(** *** pullBackends *)

Lemma pullAttempt_respects (R : relation State) `{!PreOrder R} hash b :
  (∀ c s, c ∈ [CreateCleanCwd; CreateCleanCacheDir b; Pull b hash;
               AwaitClearNodeModules; RestoreCWD; SyncDirs; Move] →
          R s (log c s)) →
  respects R (pullAttempt E hash b).
Proof.
  intros HR. unfold pullAttempt.
  repeat (apply respects_bind; [done| |intros _]);
    try (apply exec_respects; intros; apply HR; set_solver).
  - intros s. unfold awaitClearNodeModules.
    destruct (clearNodeModulesPromise s) as [[?|]|]; simpl;
      try reflexivity; apply HR; set_solver.
  - intros s. apply HR. set_solver.
  - intros s. destruct (rsyncAvailable s);
      apply exec_respects; intros; apply HR; set_solver.
Qed.

Lemma pullBackendsFrom_respects (R : relation State) `{!PreOrder R}
    hash config rest backendIndex :
  (∀ c s, (c = RestoreCWD ∨
           ∃ b, b ∈ rest ∧
                c ∈ [CreateCleanCwd; CreateCleanCacheDir b; Pull b hash;
                     AwaitClearNodeModules; RestoreCWD; SyncDirs; Move]) →
          R s (log c s)) →
  respects R (pullBackendsFrom E hash config rest backendIndex).
Proof.
  intros HR. revert backendIndex.
  induction rest as [|b rest IH]; intros backendIndex s; simpl.
  { reflexivity. }
  assert (respects R (pullAttempt E hash b)) as Hb.
  { apply pullAttempt_respects; [done|]. intros c s0 Hc. apply HR.
    right. exists b. split; [set_solver|done]. }
  specialize (Hb s).
  destruct (pullAttempt E hash b s) as [[[]|e] s1]; simpl in *; [done|].
  assert (R s (log RestoreCWD s1)) as Hs2.
  { etrans; [exact Hb|]. apply HR. by left. }
  destruct (isBundleNotFound e); simpl; [|done].
  etrans; [exact Hs2|]. apply IH.
  intros c s0 [->|(b' & Hin & Hc)]; apply HR; [by left|].
  right. exists b'. split; [set_solver|done].
Qed.

(** The recursion over the rest of the chain is the recursion over
    [backendIndex] of the source. *)
Lemma pullBackends_unfold hash config backendIndex s :
  pullBackends E hash config backendIndex s =
  match backends config !! backendIndex with
  | None => (Err BundlesNotFoundError, s)
  | Some b =>
      match pullAttempt E hash b s with
      | (Ok _, s1) =>
          (Ok {| missingBackends := take backendIndex (backends config) |}, s1)
      | (Err error, s1) =>
          if isBundleNotFound error
          then pullBackends E hash config (S backendIndex) (log RestoreCWD s1)
          else (Err error, log RestoreCWD s1)
      end
  end.
Proof.
  unfold pullBackends.
  destruct (backends config !! backendIndex) as [b|] eqn:Hb.
  - by rewrite (drop_S _ _ _ Hb).
  - apply lookup_ge_None in Hb. by rewrite drop_ge.
Qed.

Lemma pullBackends_sameVars hash config backendIndex :
  respects sameVars (pullBackends E hash config backendIndex).
Proof.
  apply pullBackendsFrom_respects; [apply _|]. intros. apply sameVars_log.
Qed.

Lemma succeedsAt_le hash config k from s s' :
  succeedsAt E hash config k from s s' → from ≤ k.
Proof. induction 1; lia. Qed.

Lemma succeedsAt_lt hash config k from s s' :
  succeedsAt E hash config k from s s' → k < length (backends config).
Proof.
  induction 1 as [b ? ? Hb _|]; [|done]. by apply lookup_lt_Some in Hb.
Qed.

Lemma succeedsAt_resolves hash config k from s s' :
  succeedsAt E hash config k from s s' →
  pullBackends E hash config from s =
    (Ok {| missingBackends := take k (backends config) |}, s').
Proof.
  induction 1 as [b s s' Hb Hpull|from b s s1 s' Hb Hpull _ IH];
    rewrite pullBackends_unfold, Hb, Hpull; simpl; done.
Qed.

Lemma resolves_succeedsAt hash config from s info s' :
  pullBackends E hash config from s = (Ok info, s') →
  ∃ k, succeedsAt E hash config k from s s' ∧
       missingBackends info = take k (backends config).
Proof.
  remember (length (backends config) - from) as n eqn:Hn.
  revert from s Hn. induction n as [|n IH]; intros from s Hn;
    rewrite pullBackends_unfold;
    destruct (backends config !! from) as [b|] eqn:Hb; try done.
  { apply lookup_lt_Some in Hb. lia. }
  destruct (pullAttempt E hash b s) as [[[]|e] s1] eqn:Hpull.
  - intros [= <- <-]. exists from. split; [|done]. by eapply succeedsAt_hit.
  - destruct e as [[]| | | | | | | |]; simpl; try done.
    intros Hrec. apply IH in Hrec as (k & Hk & Hinfo); [|lia].
    exists k. split; [|done]. by eapply succeedsAt_miss.
Qed.

(** Until the chain succeeds at index [k], only backends at indices
    [from..k] are pulled from, and nothing is pushed. *)
Lemma succeedsAt_calls hash config k from s s' :
  succeedsAt E hash config k from s s' →
  onlyCalls (λ c, (∀ b h, c = Pull b h →
                     ∃ j, from ≤ j ≤ k ∧ backends config !! j = Some b) ∧
                  (∀ b h, c ≠ Push b h)) s s'.
Proof.
  induction 1 as [b s s' Hb Hpull|from b s s1 s' Hb Hpull Hrest IH].
  - refine (respects_run _ _ _ _ _ _ Hpull).
    apply pullAttempt_respects; [apply _|]. intros c s0 Hc.
    apply onlyCalls_log. split.
    + intros b' h ->. exists k. split; [lia|]. set_solver.
    + intros b' h ->. set_solver.
  - apply succeedsAt_le in Hrest.
    etrans; [|etrans]; [| |eapply onlyCalls_weaken; [|exact IH]].
    + refine (respects_run _ _ _ _ _ _ Hpull).
      apply pullAttempt_respects; [apply _|]. intros c s0 Hc.
      apply onlyCalls_log. split.
      * intros b' h ->. exists from. split; [lia|]. set_solver.
      * intros b' h ->. set_solver.
    + apply onlyCalls_log. split; intros; congruence.
    + intros c [HP HQ]. split; [|done].
      intros b' h Hc. destruct (HP b' h Hc) as (j & ? & ?).
      exists j. split; [lia|done].
Qed.

(** *** pullOlderBundle *)

Section Walker.
Context (R : relation State) `{!PreOrder R}.
Context (Hlog : ∀ c s, isFreshnessCall c = false →
                       (∀ b h, c ≠ Push b h) → R s (log c s)).
Context (Hincr : ∀ s, R s (incrementDepth s)).

Lemma pullBackends_respects hash config backendIndex :
  respects R (pullBackends E hash config backendIndex).
Proof.
  clear Hincr.
  apply pullBackendsFrom_respects; [done|].
  intros c s [->|(b & _ & Hc)]; [by apply Hlog|].
  apply Hlog; set_solver.
Qed.

Lemma revisionAttempt_respects config prevHash lockfile historyIndex s :
  R s (revisionAttempt E config prevHash lockfile historyIndex s).2.
Proof.
  unfold revisionAttempt, olderRevision, bind, exec.
  assert (R s (log (OlderRevision (historyIndex + 1)) s)) as Hs
    by (apply Hlog; done).
  destruct (run E (trace s) _); simpl; [done|].
  destruct (gitHistory E !! _) as [[pkgJsonString lockfileString]|];
    simpl; [|done].
  destruct (parseOlderLockfile E lockfileString); simpl; [|done].
  destruct (parsePkgJson E pkgJsonString) as [|pkgJson]; simpl; [done|].
  case_decide; simpl.
  - etrans; [exact Hs|apply Hincr].
  - pose proof (pullBackends_respects
      (Some (calcHash E pkgJson a (packageHash config))) config 0
      (log (OlderRevision (historyIndex + 1)) s)) as Hp.
    destruct (pullBackends E _ config 0 _) as [[?|?] s2]; simpl in *;
      by etrans.
Qed.

Lemma pullOlderBundleFuel_respects fuel config prevHash lockfile historyIndex
    s r s' :
  pullOlderBundleFuel E fuel config prevHash lockfile historyIndex s
    = Some (r, s') →
  R s s'.
Proof.
  revert prevHash historyIndex s.
  induction fuel as [|fuel IH]; intros prevHash historyIndex s; simpl; [done|].
  destruct (useGitHistory s) as [depth|]; [|by intros [= <- <-]].
  case_decide; [by intros [= <- <-]|].
  pose proof (revisionAttempt_respects config prevHash lockfile historyIndex s)
    as Hstep.
  destruct (revisionAttempt E config prevHash lockfile historyIndex s)
    as [[[oldPkgJson|e] newHash] s1]; simpl in *.
  - by intros [= <- <-].
  - intros Hrec. apply IH in Hrec. by etrans.
Qed.

Lemma pullOlderBundle_respects config prevHash lockfile :
  respects R (pullOlderBundle E config prevHash lockfile).
Proof.
  intros s. unfold pullOlderBundle.
  destruct (pullOlderBundleFuel E _ config prevHash lockfile 0 s)
    as [[r s']|] eqn:Hwalk; simpl; [|done].
  by eapply pullOlderBundleFuel_respects.
Qed.

Lemma installDiff_respects oldPkgJson newPkgJson :
  respects R (installDiff E oldPkgJson newPkgJson).
Proof.
  clear Hincr.
  unfold installDiff. destruct newPkgJson as [newPkgJson|];
    [|by apply respects_reject].
  repeat case_match;
    repeat (apply respects_bind; [done| |intros _]);
    try (by apply respects_ret); try (by apply respects_reject);
    apply exec_respects; intros; by apply Hlog.
Qed.

Lemma npmInstallAll_respects : respects R (npmInstallAll E).
Proof. clear Hincr. apply exec_respects. intros. by apply Hlog. Qed.

Lemma tryOlderBundles_respects config newPkgJson newPkgJsonHash lockfile :
  respects R (tryOlderBundles E config newPkgJson newPkgJsonHash lockfile).
Proof.
  unfold tryOlderBundles.
  apply respects_bind; [done| |intros _].
  { apply exec_respects. intros. by apply Hlog. }
  apply respects_bind; [done| |intros oldPkgJson].
  - apply pullOlderBundle_respects.
  - apply installDiff_respects.
Qed.

End Walker.

Lemma incrementDepth_depthGrows s : depthGrows s (incrementDepth s).
Proof.
  unfold depthGrows, incrementDepth.
  destruct (useGitHistory s) eqn:Hd; simpl; [lia|by rewrite Hd].
Qed.

Lemma trace_incrementDepth s : trace (incrementDepth s) = trace s.
Proof. unfold incrementDepth. by destruct (useGitHistory s). Qed.

Lemma log_depthGrows c s : depthGrows s (log c s).
Proof. apply sameVars_depthGrows, sameVars_log. Qed.

(** One revision leaves the depth as it is or adds one to it, and it adds
    one only at a revision that exists. *)
Lemma revisionAttempt_depth config prevHash lockfile historyIndex s depth :
  useGitHistory s = Some depth →
  let s1 := (revisionAttempt E config prevHash lockfile historyIndex s).2 in
  useGitHistory s1 = Some depth ∨
  (useGitHistory s1 = Some (S depth) ∧ historyIndex < length (gitHistory E)).
Proof.
  intros Hd. unfold revisionAttempt, olderRevision, bind, exec.
  replace (historyIndex + 1 - 1) with historyIndex by lia.
  destruct (run E (trace s) _); simpl; [by left|].
  destruct (gitHistory E !! historyIndex)
    as [[pkgJsonString lockfileString]|] eqn:Hrev; simpl; [|by left].
  apply lookup_lt_Some in Hrev.
  destruct (parseOlderLockfile E lockfileString); simpl; [|by left].
  destruct (parsePkgJson E pkgJsonString) as [|pkgJson]; simpl; [by left|].
  case_decide; simpl.
  - right. unfold incrementDepth. simpl. by rewrite Hd.
  - left.
    pose proof (pullBackends_sameVars
      (Some (calcHash E pkgJson a (packageHash config))) config 0
      (log (OlderRevision (historyIndex + 1)) s)) as (Hp & _).
    destruct (pullBackends E _ config 0 _) as [[?|?] s2]; simpl in *;
      by rewrite Hp.
Qed.

(** The walk ends: the revisions left to read plus the depth budget left
    bound the number of steps. *)
Lemma pullOlderBundleFuel_terminates fuel config prevHash lockfile
    historyIndex s :
  match useGitHistory s with
  | Some depth =>
      (length (gitHistory E) - historyIndex) + (S depth - historyIndex)
  | None => 0
  end < fuel →
  is_Some (pullOlderBundleFuel E fuel config prevHash lockfile historyIndex s).
Proof.
  revert prevHash historyIndex s.
  induction fuel as [|fuel IH]; intros prevHash historyIndex s Hfuel; [lia|].
  simpl. destruct (useGitHistory s) as [depth|] eqn:Hd; [|done].
  case_decide as Hidx; [done|].
  pose proof (revisionAttempt_depth config prevHash lockfile historyIndex
                s depth Hd) as Hstep.
  destruct (revisionAttempt E config prevHash lockfile historyIndex s)
    as [[[oldPkgJson|e] newHash] s1]; simpl in *; [done|].
  apply IH. destruct Hstep as [->|[-> Hlen]]; lia.
Qed.

Lemma pullOlderBundleFuel_mono fuel fuel' config prevHash lockfile
    historyIndex s res :
  pullOlderBundleFuel E fuel config prevHash lockfile historyIndex s
    = Some res →
  fuel ≤ fuel' →
  pullOlderBundleFuel E fuel' config prevHash lockfile historyIndex s
    = Some res.
Proof.
  revert fuel' prevHash historyIndex s.
  induction fuel as [|fuel IH]; intros fuel' prevHash historyIndex s;
    simpl; [done|].
  intros Hres Hle. destruct fuel' as [|fuel']; [lia|]. simpl.
  destruct (useGitHistory s) as [depth|]; [|done].
  case_decide; [done|].
  destruct (revisionAttempt E config prevHash lockfile historyIndex s)
    as [[[oldPkgJson|e] newHash] s1]; [done|].
  apply IH; [done|lia].
Qed.

(** [walkFuel] suffices, and more fuel changes nothing. *)
Lemma pullOlderBundleFuel_enough fuel config prevHash lockfile s :
  walkFuel E s ≤ fuel →
  pullOlderBundleFuel E fuel config prevHash lockfile 0 s
    = Some (pullOlderBundle E config prevHash lockfile s).
Proof.
  intros Hfuel. unfold pullOlderBundle.
  destruct (pullOlderBundleFuel_terminates (walkFuel E s) config prevHash
              lockfile 0 s) as [res Hres].
  { unfold walkFuel. destruct (useGitHistory s); simpl; lia. }
  rewrite Hres. by eapply pullOlderBundleFuel_mono.
Qed.

(** *** pushBackends *)

Lemma pushBackends_respects (R : relation State) `{!PreOrder R}
    backendConfigs hash rePull :
  (∀ b s, b ∈ backendConfigs → push b = true → R s (log (Push b hash) s)) →
  respects R (pushBackends E backendConfigs hash rePull).
Proof.
  induction backendConfigs as [|b others IH]; intros HR s; simpl.
  { reflexivity. }
  assert (∀ s0, R s0 (pushBackends E others hash rePull s0).2) as IH'.
  { apply IH. intros b0 s0 Hin. apply HR. set_solver. }
  destruct (push b) eqn:Hpush; [|apply IH'].
  assert (R s (log (Push b hash) s)) as Hlog by (apply HR; set_solver).
  destruct (run E (trace s) (Push b hash)) as [e|]; simpl.
  2:{ etrans; [exact Hlog|apply IH']. }
  destruct e; try (destruct (pushMayFail b); simpl;
                   [etrans; [exact Hlog|apply IH']|exact Hlog]).
  destruct rePull; exact Hlog.
Qed.

Lemma pushBackends_calls backendConfigs hash rePull :
  respects (onlyCalls (λ c, ∃ b, b ∈ backendConfigs ∧ push b = true ∧
                            c = Push b hash))
    (pushBackends E backendConfigs hash rePull).
Proof.
  apply pushBackends_respects; [apply _|]. intros b s Hin Hpush.
  apply onlyCalls_log. by exists b.
Qed.

Lemma pushBackends_no_RePullNeeded backendConfigs hash s :
  (pushBackends E backendConfigs hash true s).1 ≠ Err RePullNeeded.
Proof.
  revert s. induction backendConfigs as [|b others IH]; intros s; simpl.
  { done. }
  destruct (push b); [|apply IH].
  destruct (run E (trace s) (Push b hash)) as [e|]; [|apply IH].
  destruct e; try (destruct (pushMayFail b); [apply IH|done]). done.
Qed.

(** *** install *)

Section Handlers.
Context (R : relation State) `{!PreOrder R}.
Context (Hlog : ∀ c s, isFreshnessCall c = false →
                       (∀ b h, c ≠ Push b h) → R s (log c s)).
Context (Hincr : ∀ s, R s (incrementDepth s)).

Lemma thenPull_respects config r l s :
  R s (thenPull E config (r, l, s)).2 ∧
  newPkgJsonHash (thenPull E config (r, l, s)).1.2 = newPkgJsonHash l.
Proof.
  clear Hincr. unfold thenPull. destruct r as [[]|e]; [|done].
  pose proof (pullBackends_respects R Hlog (newPkgJsonHash l) config 0 s) as Hp.
  by destruct (pullBackends E _ config 0 s) as [[info|e] s1].
Qed.

Lemma catchBundlesNotFound_respects config a r l s :
  R s (catchBundlesNotFound E config a (r, l, s)).2 ∧
  newPkgJsonHash (catchBundlesNotFound E config a (r, l, s)).1.2
    = newPkgJsonHash l.
Proof.
  unfold catchBundlesNotFound. destruct r as [[]|e]; [done|].
  destruct (isBundlesNotFound e); [|by destruct (isPkgJsonENOENT e)].
  destruct (useGitHistoryPositive s).
  - pose proof (tryOlderBundles_respects R Hlog Hincr config (newPkgJson l)
                  (newPkgJsonHash l) (lockfile a) s) as Ht.
    by destruct (tryOlderBundles E config _ _ _ s) as [? ?].
  - destruct (fallbackToNpm config); [|done].
    pose proof (npmInstallAll_respects R Hlog s) as Hn.
    by destruct (npmInstallAll E s) as [? ?].
Qed.

Lemma catchFallbackToNpm_respects config r l s :
  R s (catchFallbackToNpm E config (r, l, s)).2 ∧
  newPkgJsonHash (catchFallbackToNpm E config (r, l, s)).1.2
    = newPkgJsonHash l.
Proof.
  clear Hincr. unfold catchFallbackToNpm. destruct r as [[]|e]; [done|].
  destruct (_ && _); [|done].
  pose proof (npmInstallAll_respects R Hlog s) as Hn.
  by destruct (npmInstallAll E s) as [? ?].
Qed.

(** Everything a pass does after [pkgJsonPromise] has settled. *)
Lemma afterPkgJsonPromise_respects self config a r l s res s' :
  (∀ b s0, R s0 (log (Push b (newPkgJsonHash l)) s0)) →
  (∀ a' s0 res0 s0', self a' s0 = Some (res0, s0') → R s0 s0') →
  thenPush E self config a
    (catchFallbackToNpm E config
       (catchBundlesNotFound E config a
          (thenPull E config (r, l, s)))) = Some (res, s') →
  R s s'.
Proof.
  intros Hpush Hself.
  destruct (thenPull_respects config r l s) as [H1 E1].
  destruct (thenPull E config (r, l, s)) as [[r1 l1] s1].
  destruct (catchBundlesNotFound_respects config a r1 l1 s1) as [H2 E2].
  destruct (catchBundlesNotFound E config a (r1, l1, s1)) as [[r2 l2] s2].
  destruct (catchFallbackToNpm_respects config r2 l2 s2) as [H3 E3].
  destruct (catchFallbackToNpm E config (r2, l2, s2)) as [[r3 l3] s3].
  simpl in H1, E1, H2, E2, H3, E3.
  assert (R s s3) as H03 by (etrans; [exact H1|]; by etrans).
  assert (newPkgJsonHash l3 = newPkgJsonHash l) as E03 by congruence.
  unfold thenPush. destruct r3 as [[]|e]; simpl; [|by intros [= <- <-]].
  assert (∀ targets, pushOrRePull E self targets (newPkgJsonHash l3) a s3
                     = Some (res, s') → R s s') as Hp.
  { intros targets. unfold pushOrRePull.
    pose proof (pushBackends_respects R targets (newPkgJsonHash l3) (rePull a))
      as Hb.
    specialize (Hb ltac:(intros; rewrite E03; apply Hpush) s3).
    destruct (pushBackends E targets _ _ s3) as [[[]|e] s4]; simpl in *.
    - intros [= <- <-]. by etrans.
    - destruct (isRePullNeeded e).
      + intros Hre. apply Hself in Hre. etrans; [exact H03|]. by etrans.
      + intros [= <- <-]. by etrans. }
  destruct (done l3).
  - destruct (negb _); [apply Hp|]. by intros [= <- <-].
  - apply Hp.
Qed.

End Handlers.

Lemma readAndHash_depth config a s :
  useGitHistory (readAndHash E config a s).2 = useGitHistory s.
Proof.
  unfold readAndHash, bind, checkNodeModules, readPackageFiles, exec, reject,
    ret.
  repeat (case_match; simpl in *; simplify_eq; try done).
Qed.

Lemma pkgJsonPromise_depthGrows config a s :
  depthGrows s (pkgJsonPromise E config a s).2.
Proof.
  unfold pkgJsonPromise. destruct (rePull a); simpl; [reflexivity|].
  pose proof (readAndHash_depth config a s) as Hd.
  destruct (readAndHash E config a s) as [[[pkgJson hash]|e] s1]; simpl in *;
    unfold depthGrows; rewrite Hd; by destruct (useGitHistory s).
Qed.

Lemma installPass_depthGrows self config a s res s' :
  (∀ a' s0 res0 s0', self a' s0 = Some (res0, s0') → depthGrows s0 s0') →
  installPass E self config a s = Some (res, s') →
  depthGrows s s'.
Proof.
  intros Hself. unfold installPass.
  pose proof (pkgJsonPromise_depthGrows config a s) as H0.
  destruct (pkgJsonPromise E config a s) as [[r l] s0]; simpl in *.
  intros Hrest. etrans; [exact H0|].
  eapply (afterPkgJsonPromise_respects depthGrows); [| | | |exact Hrest];
    try done; intros; first [apply log_depthGrows|apply incrementDepth_depthGrows].
Qed.

Lemma install_depthGrows fuel config a s res s' :
  install E fuel config a s = Some (res, s') → depthGrows s s'.
Proof.
  revert a s res s'. induction fuel as [|fuel IH]; intros a s res s'; [done|].
  simpl. apply installPass_depthGrows. intros a' s0 res0 s0'. apply IH.
Qed.

Lemma pushOrRePull_cases targets hash a s :
  (∃ res, ∀ self', pushOrRePull E self' targets hash a s = Some res) ∨
  (rePull a = false ∧
   ∃ s', pushBackends E targets hash false s = (Err RePullNeeded, s') ∧
         ∀ self', pushOrRePull E self' targets hash a s
                  = self' (reentryArgs a hash) s').
Proof.
  unfold pushOrRePull.
  destruct (rePull a) eqn:HrePull.
  - left. pose proof (pushBackends_no_RePullNeeded targets hash s) as Hno.
    destruct (pushBackends E targets hash true s) as [[[]|e] s'];
      [by eexists|].
    destruct e; try (eexists; intros; reflexivity). by simpl in Hno.
  - destruct (pushBackends E targets hash false s) as [[[]|e] s'];
      [left; by eexists|].
    destruct e; try (left; by eexists).
    right. split; [done|]. by exists s'.
Qed.

(** A pass settles by itself, or it is a first pass that hands over to
    exactly one re-entry with [force] and [rePull] set. *)
Lemma installPass_cases config a s :
  (∃ res, ∀ self, installPass E self config a s = Some res) ∨
  (rePull a = false ∧
   ∃ hash s', ∀ self, installPass E self config a s
                      = self (reentryArgs a hash) s').
Proof.
  unfold installPass, thenPush.
  destruct (catchFallbackToNpm E config _) as [[[[]|e] l] s3];
    [|left; by eexists].
  destruct (done l).
  - destruct (negb _); [|left; by eexists].
    destruct (pushOrRePull_cases (missing l) (newPkgJsonHash l) a s3) as [[res Hres]|[Hre (s' & _ & Hs')]].
    + left. by exists res.
    + right. split; [done|]. by exists (newPkgJsonHash l), s'.
  - destruct (pushOrRePull_cases (backends config) (newPkgJsonHash l) a s3) as [[res Hres]|[Hre (s' & _ & Hs')]].
    + left. by exists res.
    + right. split; [done|]. by exists (newPkgJsonHash l), s'.
Qed.

Lemma installPass_rePull self self' config a s :
  rePull a = true →
  installPass E self config a s = installPass E self' config a s.
Proof.
  intros Hre. destruct (installPass_cases config a s)
    as [[res Hres]|[Hre' _]]; [|congruence].
  by rewrite !Hres.
Qed.

Lemma install_two fuel config a s :
  install E (S (S fuel)) config a s = install E 2 config a s ∧
  is_Some (install E 2 config a s).
Proof.
  simpl. destruct (installPass_cases config a s)
    as [[res Hres]|[Hre (hash & s' & Hs')]].
  - rewrite !Hres. split; [done|by eexists].
  - rewrite !Hs'.
    destruct (installPass_cases config (reentryArgs a hash) s')
      as [[res Hres]|[Hre' _]]; [|done].
    destruct fuel; simpl; rewrite !Hres; split; done.
Qed.

(** ** The pull chain *)

(** C1.  When the pull chain succeeds at the backend at index [k],
    [pullBackends] resolves with [missingBackends] equal to the chain entries
    at indices [0..k-1]; every recorded entry sits at an index below [k]; the
    chain pulls from no backend beyond index [k] and pushes to none; and the
    push over the recorded list reaches only entries at indices below
    [k]. *)
Theorem pullBackends_missed_prefix hash config k s s' :
  succeedsAt E hash config k 0 s s' →
  pullBackends E hash config 0 s =
    (Ok {| missingBackends := take k (backends config) |}, s') ∧
  length (take k (backends config)) = k ∧
  (∀ j b, take k (backends config) !! j = Some b →
          j < k ∧ backends config !! j = Some b) ∧
  onlyCalls (λ c, (∀ b h, c = Pull b h →
                     ∃ j, j ≤ k ∧ backends config !! j = Some b) ∧
                  (∀ b h, c ≠ Push b h)) s s' ∧
  (∀ rePull s2,
     onlyCalls (λ c, ∃ j b, j < k ∧ backends config !! j = Some b ∧
                            c = Push b hash) s2
       (pushBackends E (take k (backends config)) hash rePull s2).2).
Proof.
  intros Hk. split; [by apply succeedsAt_resolves|].
  pose proof (succeedsAt_lt _ _ _ _ _ _ Hk) as Hlen.
  assert (∀ j b, take k (backends config) !! j = Some b →
                 j < k ∧ backends config !! j = Some b) as Htake.
  { intros j b Hj. apply lookup_take_Some in Hj. by destruct Hj. }
  split; [rewrite length_take; lia|]. split; [exact Htake|]. split.
  - eapply onlyCalls_weaken; [|exact (succeedsAt_calls _ _ _ _ _ _ Hk)].
    intros c [HP HQ]. split; [|done]. intros b h Hc.
    destruct (HP b h Hc) as (j & ? & ?). exists j. split; [lia|done].
  - intros rePull s2. eapply onlyCalls_weaken; [|apply pushBackends_calls].
    intros c (b & Hin & _ & ->). apply list_elem_of_lookup in Hin as [j Hj].
    apply Htake in Hj as [? ?]. by exists j, b.
Qed.

(** C6.  A BundleNotFound at index [i] makes the chain go on with index
    [i + 1], and that backend is in [missingBackends] whenever the chain
    later resolves; any other error ends the chain and is the rejection of
    [pullBackends]; when every backend reports BundleNotFound,
    [pullBackends] rejects with BundlesNotFound. *)
Theorem pullBackends_error_handling hash config :
  (∀ i b s s1,
     backends config !! i = Some b →
     pullAttempt E hash b s = (Err (Ext BundleNotFoundError), s1) →
     pullBackends E hash config i s =
       pullBackends E hash config (S i) (log RestoreCWD s1) ∧
     ∀ info s',
       pullBackends E hash config (S i) (log RestoreCWD s1) = (Ok info, s') →
       missingBackends info !! i = Some b) ∧
  (∀ i b s e s1,
     backends config !! i = Some b →
     pullAttempt E hash b s = (Err e, s1) →
     isBundleNotFound e = false →
     pullBackends E hash config i s = (Err e, log RestoreCWD s1)) ∧
  (∀ s s',
     exhausted E hash config 0 s s' →
     pullBackends E hash config 0 s = (Err BundlesNotFoundError, s')).
Proof.
  split; [|split].
  - intros i b s s1 Hb Hpull. split.
    + by rewrite pullBackends_unfold, Hb, Hpull.
    + intros info s' Hres.
      apply resolves_succeedsAt in Hres as (k & Hk & ->).
      apply succeedsAt_le in Hk. rewrite lookup_take_lt by lia. done.
  - intros i b s e s1 Hb Hpull He.
    by rewrite pullBackends_unfold, Hb, Hpull, He.
  - intros s s'. generalize 0.
    induction 1 as [from s Hb|from b s s1 s' Hb Hpull _ IH];
      rewrite pullBackends_unfold, Hb; [done|].
    by rewrite Hpull.
Qed.

(** ** The history walk *)

(** A revision whose fingerprint equals [prevHash] settles its attempt with
    one call to git, none to a backend, and the depth raised by one. *)
Lemma revisionAttempt_unchanged config prevHash lockfile historyIndex s depth
    pkgJson hash :
  useGitHistory s = Some depth →
  run E (trace s) (OlderRevision (historyIndex + 1)) = None →
  revisionHash E config historyIndex = Some (pkgJson, hash) →
  Some hash = prevHash →
  revisionAttempt E config prevHash lockfile historyIndex s =
    ((Err PlainError, prevHash),
     set_depth (S depth) (log (OlderRevision (historyIndex + 1)) s)).
Proof.
  intros Hd Hrun Hrev Hsame.
  unfold revisionAttempt, olderRevision, bind, exec, revisionHash in *.
  rewrite Hrun. replace (historyIndex + 1 - 1) with historyIndex by lia.
  destruct (gitHistory E !! historyIndex)
    as [[pkgJsonString lockfileString]|]; [|done].
  destruct (parseOlderLockfile E lockfileString); [|done].
  destruct (parsePkgJson E pkgJsonString); [done|].
  injection Hrev as -> <-. rewrite decide_True by done.
  unfold incrementDepth. simpl. by rewrite Hd.
Qed.

(** Every pull of an attempt asks for the fingerprint recomputed at that
    revision, and that fingerprint differs from [prevHash]. *)
Lemma revisionAttempt_pulls config prevHash lockfile historyIndex s :
  onlyCalls (λ c, ∀ b h, c = Pull b h →
                    h ≠ prevHash ∧
                    ∃ pkgJson hash,
                      revisionHash E config historyIndex = Some (pkgJson, hash) ∧
                      h = Some hash)
    s (revisionAttempt E config prevHash lockfile historyIndex s).2.
Proof.
  unfold revisionAttempt, olderRevision, bind, exec, revisionHash.
  replace (historyIndex + 1 - 1) with historyIndex by lia.
  destruct (run E (trace s) _); simpl.
  { apply onlyCalls_log. intros b h [=]. }
  destruct (gitHistory E !! historyIndex)
    as [[pkgJsonString lockfileString]|]; simpl.
  2:{ apply onlyCalls_log. intros b h [=]. }
  destruct (parseOlderLockfile E lockfileString) as [newLockfileContents|];
    simpl.
  2:{ apply onlyCalls_log. intros b h [=]. }
  destruct (parsePkgJson E pkgJsonString) as [|pkgJson]; simpl.
  { apply onlyCalls_log. intros b h [=]. }
  case_decide as Hhash; simpl.
  { exists [OlderRevision (historyIndex + 1)].
    split; [by rewrite trace_incrementDepth|].
    apply Forall_singleton. intros b h [=]. }
  trans (log (OlderRevision (historyIndex + 1)) s);
    [apply onlyCalls_log; intros b h [=]|].
  set (hash := calcHash E pkgJson newLockfileContents (packageHash config)) in *.
  unfold pullBackends.
  pose proof (pullBackendsFrom_respects
    (onlyCalls (λ c, ∀ b h, c = Pull b h →
                  h ≠ prevHash ∧
                  ∃ pkgJson0 hash0,
                    Some (pkgJson, hash) = Some (pkgJson0, hash0) ∧
                    h = Some hash0))
    (Some hash) config (drop 0 (backends config)) 0) as Hp.
  lapply Hp; [clear Hp; intros Hp|].
  2:{ intros c s0 Hc. apply onlyCalls_log. intros b' h' ->.
      assert (h' = Some hash) as -> by set_solver.
      split; [done|]. by eexists _, _. }
  specialize (Hp (log (OlderRevision (historyIndex + 1)) s)).
  by destruct (pullBackendsFrom E _ config _ 0 _) as [[?|?] s2].
Qed.

(** The step of the walk at an unchanged revision. *)
Lemma pullOlderBundleFuel_unchanged config prevHash lockfile historyIndex s :
  ∀ fuel depth pkgJson hash,
    useGitHistory s = Some depth →
    historyIndex ≤ depth →
    run E (trace s) (OlderRevision (historyIndex + 1)) = None →
    revisionHash E config historyIndex = Some (pkgJson, hash) →
    Some hash = prevHash →
    pullOlderBundleFuel E (S fuel) config prevHash lockfile historyIndex s =
      pullOlderBundleFuel E fuel config prevHash lockfile (S historyIndex)
        (set_depth (S depth) (log (OlderRevision (historyIndex + 1)) s)).
Proof.
  intros fuel depth pkgJson hash Hd Hidx Hrun Hrev Hsame.
  simpl. rewrite Hd. rewrite decide_False by lia.
  by erewrite revisionAttempt_unchanged.
Qed.

(** Past the end of the history the code takes one slot per request. *)
Lemma pullOlderBundleFuel_drain config lockfile budget :
  ∀ fuel prevHash historyIndex s depth,
    length (gitHistory E) ≤ historyIndex →
    useGitHistory s = Some depth →
    budget + historyIndex = depth + 1 →
    budget < fuel →
    pullOlderBundleFuel E fuel config prevHash lockfile historyIndex s =
      Some (Err BundlesNotFoundError, drain budget (historyIndex + 1) s).
Proof.
  induction budget as [|budget IH];
    intros fuel prevHash historyIndex s depth Hlen Hd Hb Hfuel;
    (destruct fuel as [|fuel]; [lia|]); simpl; rewrite Hd.
  - by rewrite decide_True by lia.
  - rewrite decide_False by lia.
    unfold revisionAttempt, olderRevision, bind, exec.
    replace (historyIndex + 1 - 1) with historyIndex by lia.
    rewrite (proj2 (lookup_ge_None _ _) Hlen).
    destruct (run E (trace s) _); simpl;
      (erewrite IH; [done|lia|done|lia|lia]).
Qed.

(** The code's walk, with its index and its depth bound, is the walk over
    revisions and budget. *)
Lemma pullOlderBundleFuel_walkHistory config lockfile revs :
  ∀ fuel prevHash historyIndex s depth budget,
    drop historyIndex (gitHistory E) = revs →
    useGitHistory s = Some depth →
    budget + historyIndex = depth + 1 →
    length revs + budget < fuel →
    pullOlderBundleFuel E fuel config prevHash lockfile historyIndex s =
      Some (walkHistory E config revs budget depth prevHash historyIndex s).
Proof.
  induction revs as [|rev revs IH];
    intros fuel prevHash historyIndex s depth budget Hrevs Hd Hb Hfuel.
  - destruct budget as [|budget].
    + destruct fuel as [|fuel]; [lia|]. simpl. rewrite Hd.
      by rewrite decide_True by lia.
    + pose proof (length_drop (gitHistory E) historyIndex) as Hlen.
      rewrite Hrevs in Hlen. simpl in Hlen, Hfuel.
      apply (pullOlderBundleFuel_drain config lockfile (S budget)
               fuel prevHash historyIndex s depth); [lia|done|done|lia].
  - assert (gitHistory E !! historyIndex = Some rev) as Hlook.
    { pose proof (lookup_drop (gitHistory E) historyIndex 0) as Hl.
      rewrite Hrevs in Hl. simpl in Hl. by rewrite Nat.add_0_r in Hl. }
    assert (drop (S historyIndex) (gitHistory E) = revs) as Hrevs'.
    { rewrite (drop_S _ _ _ Hlook) in Hrevs. by injection Hrevs. }
    destruct fuel as [|fuel]; [lia|].
    destruct budget as [|budget].
    { simpl. rewrite Hd. by rewrite decide_True by lia. }
    simpl. rewrite Hd. rewrite decide_False by lia.
    unfold revisionAttempt, olderRevision, bind, exec, parseRevision.
    replace (historyIndex + 1 - 1) with historyIndex by lia.
    destruct (run E (trace s) (OlderRevision (historyIndex + 1))); simpl.
    { apply IH; try done; simpl in *; lia. }
    rewrite Hlook. destruct rev as [pkgJsonString lockfileString]. simpl.
    destruct (parseOlderLockfile E lockfileString) as [newLockfileContents|];
      simpl.
    2:{ apply IH; try done; simpl in *; lia. }
    destruct (parsePkgJson E pkgJsonString) as [|pkgJson]; simpl.
    { apply IH; try done; simpl in *; lia. }
    case_decide as Hsame; simpl.
    + unfold incrementDepth. simpl. rewrite Hd.
      apply IH; try done; simpl in *; lia.
    + pose proof (pullBackends_sameVars
        (Some (calcHash E pkgJson newLockfileContents (packageHash config)))
        config 0 (log (OlderRevision (historyIndex + 1)) s)) as (Hp & _).
      destruct (pullBackends E _ config 0 _) as [[info|e] s2]; simpl in *;
        [done|].
      apply IH; try done; [by rewrite Hp|lia|lia].
Qed.

(** Revisions whose fingerprint is [lastFingerprint] leave the budget as it
    is. *)
Lemma walkHistory_skip config lastFingerprint budget k :
  (∀ tr age, run E tr (OlderRevision age) = None) →
  ∀ revs depth historyIndex s,
    useGitHistory s = Some depth →
    k ≤ length revs →
    Forall (λ rev, ∃ pkgJson hash,
                     parseRevision E config rev = Some (pkgJson, hash) ∧
                     Some hash = lastFingerprint) (take k revs) →
    walkHistory E config revs (S budget) depth lastFingerprint historyIndex s =
      walkHistory E config (drop k revs) (S budget) (depth + k)
        lastFingerprint (historyIndex + k)
        (skipRevisions historyIndex k depth s).
Proof.
  intros Hgit. induction k as [|k IH];
    intros revs depth historyIndex s Hd Hlen Hsame.
  - rewrite drop_0, !Nat.add_0_r. f_equal.
    unfold skipRevisions. destruct s. simpl in *.
    by rewrite app_nil_r, Nat.add_0_r, Hd.
  - destruct revs as [|rev revs]; [simpl in Hlen; lia|].
    simpl in Hlen. rewrite firstn_cons in Hsame.
    apply Forall_cons in Hsame as [(pkgJson & hash & Hparse & Hhash) Hrest].
    cbn [walkHistory]. rewrite Hgit, Hparse, decide_True by done.
    rewrite (IH revs (S depth) (S historyIndex)
               (set_depth (S depth) (log (OlderRevision (historyIndex + 1)) s)));
      [|done|lia|done].
    simpl drop.
    replace (S depth + k) with (depth + S k) by lia.
    replace (S historyIndex + k) with (historyIndex + S k) by lia.
    f_equal. unfold skipRevisions. simpl.
    rewrite <- app_assoc. simpl.
    by replace (depth + S k) with (S (depth + k)) by lia.
Qed.

(** C4.  The walk of the code is the walk in which a revision whose
    recomputed fingerprint equals the previous one takes no slot of the
    budget of [depth + 1] revisions, raises the depth bound by one, is
    followed by the next revision and asks no backend, and in which the pull
    chain runs for the revisions with another fingerprint.  So after [k]
    unchanged revisions the walk goes on from revision [k] with the whole
    budget, [k] calls to git made and the depth raised by [k]; and whatever
    an attempt pulls, it pulls for a fingerprint that differs from the
    previous one. *)
Theorem pullOlderBundle_unchanged_revision config prevHash lockfile s depth :
  useGitHistory s = Some depth →
  pullOlderBundle E config prevHash lockfile s =
    walkHistory E config (gitHistory E) (depth + 1) depth prevHash 0 s ∧
  (∀ fuel,
     walkFuel E s ≤ fuel →
     pullOlderBundleFuel E fuel config prevHash lockfile 0 s =
       Some (walkHistory E config (gitHistory E) (depth + 1) depth prevHash
               0 s)) ∧
  (∀ k,
     (∀ tr age, run E tr (OlderRevision age) = None) →
     k ≤ length (gitHistory E) →
     Forall (λ rev, ∃ pkgJson hash,
                      parseRevision E config rev = Some (pkgJson, hash) ∧
                      Some hash = prevHash) (take k (gitHistory E)) →
     pullOlderBundle E config prevHash lockfile s =
       walkHistory E config (drop k (gitHistory E)) (depth + 1) (depth + k)
         prevHash k (skipRevisions 0 k depth s) ∧
     ∃ calls depth',
       trace (pullOlderBundle E config prevHash lockfile s).2 =
         trace s ++ (OlderRevision <$> seq 1 k) ++ calls ∧
       useGitHistory (pullOlderBundle E config prevHash lockfile s).2 =
         Some depth' ∧
       depth + k ≤ depth') ∧
  (∀ lastFingerprint historyIndex s0,
     onlyCalls (λ c, ∀ b h, c = Pull b h →
                       h ≠ lastFingerprint ∧
                       ∃ pkgJson hash,
                         revisionHash E config historyIndex
                           = Some (pkgJson, hash) ∧
                         h = Some hash)
       s0 (revisionAttempt E config lastFingerprint lockfile historyIndex
             s0).2).
Proof.
  intros Hd.
  assert (∀ fuel,
     walkFuel E s ≤ fuel →
     pullOlderBundleFuel E fuel config prevHash lockfile 0 s =
       Some (walkHistory E config (gitHistory E) (depth + 1) depth prevHash
               0 s)) as Hfuel.
  { intros fuel Hle. unfold walkFuel in Hle. rewrite Hd in Hle.
    simpl in Hle.
    apply pullOlderBundleFuel_walkHistory; [done|done|lia|lia]. }
  assert (pullOlderBundle E config prevHash lockfile s =
            walkHistory E config (gitHistory E) (depth + 1) depth prevHash 0 s)
    as Hwalk.
  { unfold pullOlderBundle. by rewrite (Hfuel _ (Nat.le_refl _)). }
  split; [exact Hwalk|]. split; [exact Hfuel|]. split.
  - intros k Hgit Hlen Hsame.
    assert (pullOlderBundle E config prevHash lockfile s =
              walkHistory E config (drop k (gitHistory E)) (depth + 1)
                (depth + k) prevHash k (skipRevisions 0 k depth s)) as Hskip.
    { rewrite Hwalk. replace (depth + 1) with (S depth) by lia.
      by rewrite (walkHistory_skip config prevHash depth k Hgit
                    (gitHistory E) depth 0 s Hd Hlen Hsame). }
    split; [exact Hskip|]. rewrite Hskip.
    pose proof (pullOlderBundleFuel_walkHistory config lockfile
                  (drop k (gitHistory E))
                  (S (length (gitHistory E) + (depth + 1))) prevHash k
                  (skipRevisions 0 k depth s) (depth + k) (depth + 1)
                  eq_refl eq_refl) as Hrest.
    lapply Hrest; [clear Hrest; intros Hrest|lia].
    lapply Hrest; [clear Hrest; intros Hrest|rewrite length_drop; lia].
    destruct (walkHistory E config (drop k (gitHistory E)) (depth + 1)
                (depth + k) prevHash k (skipRevisions 0 k depth s))
      as [res s'].
    pose proof (pullOlderBundleFuel_respects (onlyCalls (λ _, True))
                  ltac:(intros; by apply onlyCalls_log)
                  ltac:(intros s0; exists []; by rewrite trace_incrementDepth,
                                                app_nil_r)
                  _ _ _ _ _ _ _ _ Hrest) as (calls & Htrace & _).
    pose proof (pullOlderBundleFuel_respects depthGrows
                  ltac:(intros; apply log_depthGrows)
                  incrementDepth_depthGrows
                  _ _ _ _ _ _ _ _ Hrest) as Hdepth.
    unfold depthGrows in Hdepth. simpl in Hdepth, Htrace |- *.
    destruct (useGitHistory s') as [depth'|]; [|done].
    exists calls, depth'. by rewrite Htrace, <- app_assoc.
  - intros lastFingerprint historyIndex s0. apply revisionAttempt_pulls.
Qed.

(** ** The caller's config object *)

(** C10.  Whatever way install returns, the depth in the caller's config
    is at least what it was, and is never put back; a revision whose
    fingerprint equals the previous one raises it by one; and when the pull
    chain misses and the first revision back is unchanged, the depth after
    install is strictly larger than before. *)
Theorem install_mutates_depth config :
  (∀ fuel a s res s',
     install E fuel config a s = Some (res, s') → depthGrows s s') ∧
  (∀ prevHash lockfile historyIndex s depth pkgJson hash,
     useGitHistory s = Some depth →
     run E (trace s) (OlderRevision (historyIndex + 1)) = None →
     revisionHash E config historyIndex = Some (pkgJson, hash) →
     Some hash = prevHash →
     useGitHistory
       (revisionAttempt E config prevHash lockfile historyIndex s).2
       = Some (S depth)) ∧
  (∀ fuel a s res s' l s1 pkgJson hash,
     install E fuel config a s = Some (res, s') →
     thenPull E config (pkgJsonPromise E config a s)
       = (Err BundlesNotFoundError, l, s1) →
     useGitHistoryPositive s1 = true →
     (∀ tr, run E tr IsGitRepo = None) →
     (∀ tr, run E tr (OlderRevision 1) = None) →
     revisionHash E config 0 = Some (pkgJson, hash) →
     newPkgJsonHash l = Some hash →
     ∃ depth depth',
       useGitHistory s = Some depth ∧ useGitHistory s' = Some depth' ∧
       depth < depth').
Proof.
  split; [|split].
  - intros fuel a s res s'. apply install_depthGrows.
  - intros prevHash lockfile historyIndex s depth pkgJson hash Hd Hrun Hrev Hh.
    by erewrite revisionAttempt_unchanged.
  - intros fuel a s res s' l s1 pkgJson hash Hinst Hpull Hpos Hgit Hrev0 Hrev Hh.
    destruct fuel as [|fuel]; [done|]. simpl in Hinst.
    unfold installPass in Hinst. rewrite Hpull in Hinst.
    (* the state before the walk *)
    assert (depthGrows s s1) as H01.
    { pose proof (pkgJsonPromise_depthGrows config a s) as H0.
      destruct (pkgJsonPromise E config a s) as [[r0 l0] s0].
      destruct (thenPull_respects depthGrows
                  ltac:(intros; apply log_depthGrows) config r0 l0 s0)
        as [H1 _].
      rewrite Hpull in H1. simpl in H0, H1. by etrans. }
    unfold useGitHistoryPositive in Hpos.
    destruct (useGitHistory s1) as [d1|] eqn:Hd1; [|done].
    (* the walk raises the depth at its first step *)
    set (s2 := log IsGitRepo s1).
    set (s3 := set_depth (S d1) (log (OlderRevision 1) s2)).
    assert (∃ r4 s4, tryOlderBundles E config (newPkgJson l) (newPkgJsonHash l)
                       (lockfile a) s1 = (r4, s4) ∧ depthGrows s3 s4)
      as (r4 & s4 & Htry & H34).
    { unfold tryOlderBundles, bind, exec. rewrite Hgit. fold s2.
      unfold pullOlderBundle.
      destruct (pullOlderBundleFuel_terminates (walkFuel E s2) config
                  (newPkgJsonHash l) (lockfile a) 0 s2) as [[r s5] Hwalk].
      { unfold walkFuel. destruct (useGitHistory s2); simpl; lia. }
      rewrite Hwalk.
      destruct (walkFuel E s2) as [|fuel2] eqn:Hf2; [done|].
      rewrite (pullOlderBundleFuel_unchanged config (newPkgJsonHash l)
                 (lockfile a) 0 s2 fuel2 d1 pkgJson hash) in Hwalk;
        [|done|lia|done|done|done].
      fold s3 in Hwalk.
      assert (depthGrows s3 s5) as H35.
      { eapply (pullOlderBundleFuel_respects depthGrows); [| |exact Hwalk];
          intros; first [apply log_depthGrows|apply incrementDepth_depthGrows]. }
      destruct r as [oldPkgJson|e].
      - pose proof (installDiff_respects depthGrows
          ltac:(intros; apply log_depthGrows) oldPkgJson (newPkgJson l) s5)
          as Hdiff.
        destruct (installDiff E oldPkgJson (newPkgJson l) s5) as [r6 s6].
        exists r6, s6. split; [done|]. by etrans.
      - by exists (Err e), s5. }
    (* everything after the walk keeps the depth *)
    assert (depthGrows s4 s') as H4.
    { assert (useGitHistoryPositive s1 = true) as Hpos'
        by (unfold useGitHistoryPositive; by rewrite Hd1).
      unfold catchBundlesNotFound in Hinst. cbn [isBundlesNotFound] in Hinst.
      rewrite Hpos', Htry in Hinst.
      destruct (catchFallbackToNpm_respects depthGrows
                  ltac:(intros; apply log_depthGrows) config r4 l s4)
        as [H5 _].
      destruct (catchFallbackToNpm E config (r4, l, s4)) as [[r5 l5] s5].
      simpl in H5. etrans; [exact H5|].
      unfold thenPush in Hinst.
      destruct r5 as [[]|e]; [|by injection Hinst as <- <-].
      assert (∀ targets, pushOrRePull E (λ a' s', install E fuel config a' s')
                targets (newPkgJsonHash l5) a s5 = Some (res, s') →
              depthGrows s5 s') as Hp.
      { intros targets. unfold pushOrRePull.
        pose proof (pushBackends_respects depthGrows targets
                      (newPkgJsonHash l5) (rePull a)
                      ltac:(intros; apply log_depthGrows) s5) as Hb.
        destruct (pushBackends E targets _ _ s5) as [[[]|e] s6]; simpl in Hb.
        - by intros [= <- <-].
        - destruct (isRePullNeeded e); [|by intros [= <- <-]].
          intros Hre. apply install_depthGrows in Hre. by etrans. }
      destruct (done l5); [destruct (negb _)|]; try (by eapply Hp).
      by injection Hinst as <- <-. }
    (* put together *)
    assert (depthGrows s3 s') as H3 by (by etrans).
    unfold depthGrows in H01, H3. rewrite Hd1 in H01. simpl in H3.
    destruct (useGitHistory s) as [d|]; [|done].
    destruct (useGitHistory s') as [d'|]; [|done].
    exists d, d'. split; [done|]. split; [done|]. lia.
Qed.

(** ** The rePull bound *)

(** C2.  A pass with [rePull] set never re-enters install; a pass re-enters
    at most once, with [force] and [rePull] set; so two levels of install
    always suffice and install always returns.  With [rePull] set,
    [pushBackends] never asks for a rePull, a conflicting push is rejected
    with BundleAlreadyExists, and a failure of the push phase is the
    rejection of install. *)
Theorem install_rePull_bounded config a s :
  (rePull a = true →
   ∀ self self', installPass E self config a s = installPass E self' config a s) ∧
  ((∃ res, ∀ self, installPass E self config a s = Some res) ∨
   (rePull a = false ∧
    ∃ hash s', ∀ self,
      installPass E self config a s =
        self {| force := true; rePull := true; rePullHash := hash;
                lockfile := lockfile a |} s')) ∧
  (∀ fuel, install E (S (S fuel)) config a s = install E 2 config a s) ∧
  is_Some (install E 2 config a s) ∧
  (∀ targets hash, (pushBackends E targets hash true s).1 ≠ Err RePullNeeded) ∧
  (∀ b others hash,
     push b = true →
     run E (trace s) (Push b hash) = Some BundleAlreadyExistsError →
     pushBackends E (b :: others) hash true s =
       (Err (Ext BundleAlreadyExistsError), log (Push b hash) s)) ∧
  (∀ fuel l s3 e s4,
     rePull a = true →
     catchFallbackToNpm E config
       (catchBundlesNotFound E config a
          (thenPull E config (pkgJsonPromise E config a s))) = (Ok tt, l, s3) →
     done l = false ∨ missing l ≠ [] →
     pushBackends E (if done l then missing l else backends config)
       (newPkgJsonHash l) true s3 = (Err e, s4) →
     install E (S fuel) config a s = Some (Err e, s4)).
Proof.
  split; [|split; [|split; [|split; [|split; [|split]]]]].
  - intros Hre self self'. by apply installPass_rePull.
  - apply installPass_cases.
  - intros fuel. apply install_two.
  - apply (install_two 0).
  - intros targets hash. apply pushBackends_no_RePullNeeded.
  - intros b others hash Hpush Hrun. simpl. by rewrite Hpush, Hrun.
  - intros fuel l s3 e s4 Hre Hpipe Htargets Hfail. simpl.
    unfold installPass. rewrite Hpipe. unfold thenPush, pushOrRePull.
    rewrite Hre.
    pose proof (pushBackends_no_RePullNeeded
                  (if done l then missing l else backends config)
                  (newPkgJsonHash l) s3) as Hno.
    rewrite Hfail in Hno. simpl in Hno.
    destruct (done l).
    + destruct Htargets as [|Hne]; [done|].
      destruct (missing l) as [|b0 others]; [done|]. simpl.
      simpl in Hfail. rewrite Hfail. by destruct e.
    + rewrite Hfail. by destruct e.
Qed.

(** ** The second pass *)

(** C9.  With [rePull] set, [pkgJsonPromise] is settled at once: the state
    is untouched and the fingerprint is [rePullHash]; the pull chain runs
    for that fingerprint; and all of install adds no freshness call (rsync
    probe, node_modules check or removal, manifest or lockfile read) and
    pushes for no other fingerprint. *)
Theorem install_second_pass config a s :
  rePull a = true →
  pkgJsonPromise E config a s =
    (Ok tt, {| newPkgJson := None; newPkgJsonHash := rePullHash a;
               missing := []; done := false |}, s) ∧
  thenPull E config (pkgJsonPromise E config a s) =
    match pullBackends E (rePullHash a) config 0 s with
    | (Ok info, s1) =>
        (Ok tt, {| newPkgJson := None; newPkgJsonHash := rePullHash a;
                   missing := missingBackends info; done := true |}, s1)
    | (Err e, s1) =>
        (Err e, {| newPkgJson := None; newPkgJsonHash := rePullHash a;
                   missing := []; done := false |}, s1)
    end ∧
  (∀ fuel res s',
     install E fuel config a s = Some (res, s') →
     onlyCalls (λ c, isFreshnessCall c = false ∧
                     ∀ b h, c = Push b h → h = rePullHash a) s s').
Proof.
  intros Hre.
  assert (pkgJsonPromise E config a s =
    (Ok tt, {| newPkgJson := None; newPkgJsonHash := rePullHash a;
               missing := []; done := false |}, s)) as Hp
    by (unfold pkgJsonPromise; by rewrite Hre).
  split; [exact Hp|]. split.
  { rewrite Hp. unfold thenPull. simpl.
    by destruct (pullBackends E (rePullHash a) config 0 s) as [[?|?] ?]. }
  intros fuel res s'. destruct fuel as [|fuel]; [done|]. simpl.
  rewrite (installPass_rePull _ (λ _ _, None)) by done.
  unfold installPass. rewrite Hp.
  apply (afterPkgJsonPromise_respects
           (onlyCalls (λ c, isFreshnessCall c = false ∧
                            ∀ b h, c = Push b h → h = rePullHash a))).
  - intros c s0 Hc Hpush. apply onlyCalls_log. split; [done|].
    intros b h ->. by destruct (Hpush b h).
  - intros s0. exists []. rewrite trace_incrementDepth, app_nil_r. done.
  - intros b s0. apply onlyCalls_log. split; [done|]. by intros b' h' [= _ <-].
  - done.
Qed.

(** ** Dispatch on BundlesNotFound *)

(** C3, as the code has it.  When the pull chain rejects with
    BundlesNotFound: with a positive depth the history fallback runs, and
    if it rejects with BundlesNotFound and fallbackToNpm is set the native
    full install runs, while any other rejection of it is the rejection of
    install; without a positive depth the native full install runs if
    fallbackToNpm is set, and install rejects with BundlesNotFound if not.
    A failed repository check is such another rejection of the history
    fallback. *)
Theorem install_BundlesNotFound_dispatch self config a s l s1 :
  thenPull E config (pkgJsonPromise E config a s)
    = (Err BundlesNotFoundError, l, s1) →
  installPass E self config a s =
    (if useGitHistoryPositive s1 then
       match tryOlderBundles E config (newPkgJson l) (newPkgJsonHash l)
               (lockfile a) s1 with
       | (Ok _, s2) => thenPush E self config a (Ok tt, l, s2)
       | (Err e, s2) =>
           if isBundlesNotFound e && fallbackToNpm config then
             match npmInstallAll E s2 with
             | (Ok _, s3) => thenPush E self config a (Ok tt, l, s3)
             | (Err e', s3) => Some (Err e', s3)
             end
           else Some (Err e, s2)
       end
     else if fallbackToNpm config then
       match npmInstallAll E s1 with
       | (Ok _, s2) => thenPush E self config a (Ok tt, l, s2)
       | (Err e, s2) => Some (Err e, s2)
       end
     else Some (Err BundlesNotFoundError, s1)) ∧
  (∀ e, run E (trace s1) IsGitRepo = Some e →
        tryOlderBundles E config (newPkgJson l) (newPkgJsonHash l)
          (lockfile a) s1 = (Err (Ext e), log IsGitRepo s1) ∧
        isBundlesNotFound (Ext e) = false).
Proof.
  intros Hpull. split.
  - unfold installPass. rewrite Hpull.
    unfold catchBundlesNotFound. cbn [isBundlesNotFound].
    destruct (useGitHistoryPositive s1).
    + destruct (tryOlderBundles E config _ _ _ s1) as [[[]|e] s2]; [done|].
      unfold catchFallbackToNpm.
      destruct (isBundlesNotFound e && fallbackToNpm config); [|done].
      by destruct (npmInstallAll E s2) as [[[]|e'] s3].
    + destruct (fallbackToNpm config) eqn:Hnpm.
      * unfold npmInstallAll, exec.
        by destruct (run E (trace s1) NpmInstallAll).
      * unfold catchFallbackToNpm. simpl. by rewrite Hnpm.
  - intros e He. split; [|done].
    unfold tryOlderBundles, bind, exec. by rewrite He.
Qed.

(** ** The delta installer *)

Lemma allDeps_lookup pkgJson k :
  allDeps pkgJson !! k =
    match dependencies pkgJson !! k with
    | Some v => Some v
    | None => devDependencies pkgJson !! k
    end.
Proof.
  unfold allDeps. rewrite lookup_union.
  by destruct (dependencies pkgJson !! k), (devDependencies pkgJson !! k).
Qed.

Lemma omitUndefined_lookup (lhs rhs : Deps) k v :
  omitUndefined (objectDiff lhs rhs) !! k = Some v ↔
  rhs !! k = Some v ∧ lhs !! k ≠ Some v.
Proof.
  unfold omitUndefined, objectDiff. rewrite lookup_omap, lookup_merge.
  unfold diffEntry.
  destruct (lhs !! k) as [u|], (rhs !! k) as [w|]; simpl;
    try case_decide; simpl; naive_solver.
Qed.

Lemma keysUndefined_elem (lhs rhs : Deps) k :
  k ∈ keysUndefined (objectDiff lhs rhs) ↔
  is_Some (lhs !! k) ∧ rhs !! k = None.
Proof.
  unfold keysUndefined, objectDiff. rewrite list_elem_of_fmap. split.
  - intros ([k' v] & -> & Hin). apply elem_of_map_to_list in Hin.
    apply map_lookup_filter_Some in Hin as [Hl Hv]. simpl in *. subst v.
    rewrite lookup_merge in Hl. unfold diffEntry in Hl.
    destruct (lhs !! k') as [u|], (rhs !! k') as [w|]; simpl in *;
      try case_decide; naive_solver.
  - intros [[u Hu] Hr]. exists (k, None). split; [done|].
    apply elem_of_map_to_list. apply map_lookup_filter_Some. split; [|done].
    rewrite lookup_merge, Hu, Hr. done.
Qed.

Lemma installDiff_trace oldPkgJson newPkgJson s :
  trace (installDiff E oldPkgJson (Some newPkgJson) s).2 =
    trace s ++
    reconcileCalls E (trace s)
      (omitUndefined (objectDiff (allDeps oldPkgJson) (allDeps newPkgJson)))
      (keysUndefined (objectDiff (allDeps oldPkgJson) (allDeps newPkgJson))).
Proof.
  unfold installDiff, reconcileCalls.
  set (ti := omitUndefined _). set (tu := keysUndefined _).
  destruct (Nat.eqb_spec (size ti) 0) as [Hti|Hti]; simpl.
  - apply map_size_empty_iff in Hti. rewrite decide_True by done.
    destruct (Nat.eqb_spec (length tu) 0) as [Htu|Htu]; simpl.
    + apply nil_length_inv in Htu. rewrite decide_True by done.
      by rewrite app_nil_r.
    + rewrite decide_False by (by intros ->).
      unfold exec. by destruct (run E (trace s) _).
  - apply map_size_non_empty_iff in Hti. rewrite decide_False by done.
    unfold bind, exec. destruct (run E (trace s) (NpmInstall ti)); [done|].
    destruct (Nat.eqb_spec (length tu) 0) as [Htu|Htu]; simpl.
    + apply nil_length_inv in Htu. by rewrite decide_True by done.
    + rewrite decide_False by (by intros ->).
      destruct (run E _ (NpmUninstall tu)); simpl; by rewrite <- app_assoc.
Qed.

(** C5.  The merged map of a manifest is its runtime map over its dev map;
    [toInstall] holds the entries of the new merged map whose key is absent
    from the old one or bound to another value there; [toUninstall] holds,
    once each, the keys of the old merged map that are absent from the new
    one; and npm is called with [toInstall] first and with [toUninstall]
    after that install has resolved, each only when not empty. *)
Theorem installDiff_delta oldPkgJson newPkgJson :
  let allDepsOld := allDeps oldPkgJson in
  let allDepsNew := allDeps newPkgJson in
  let toInstall := omitUndefined (objectDiff allDepsOld allDepsNew) in
  let toUninstall := keysUndefined (objectDiff allDepsOld allDepsNew) in
  (∀ pkgJson k,
     allDeps pkgJson !! k =
       match dependencies pkgJson !! k with
       | Some v => Some v
       | None => devDependencies pkgJson !! k
       end) ∧
  (∀ k v, toInstall !! k = Some v ↔
          allDepsNew !! k = Some v ∧ allDepsOld !! k ≠ Some v) ∧
  (∀ k, k ∈ toUninstall ↔
        is_Some (allDepsOld !! k) ∧ allDepsNew !! k = None) ∧
  NoDup toUninstall ∧
  (∀ s, trace (installDiff E oldPkgJson (Some newPkgJson) s).2 =
          trace s ++ reconcileCalls E (trace s) toInstall toUninstall) ∧
  (∀ s, toInstall ≠ ∅ → toUninstall ≠ [] →
        run E (trace s) (NpmInstall toInstall) = None →
        trace (installDiff E oldPkgJson (Some newPkgJson) s).2 =
          trace s ++ [NpmInstall toInstall; NpmUninstall toUninstall]).
Proof.
  intros allDepsOld allDepsNew toInstall toUninstall.
  split; [apply allDeps_lookup|].
  split; [apply omitUndefined_lookup|].
  split; [apply keysUndefined_elem|].
  split; [apply NoDup_fst_map_to_list|].
  split; [apply installDiff_trace|].
  intros s Hti Htu Hrun. rewrite installDiff_trace. unfold reconcileCalls.
  fold allDepsOld allDepsNew toInstall toUninstall.
  by rewrite decide_False, Hrun, decide_False.
Qed.

(** The diff is empty exactly when the merged maps are equal, and then the
    assertion fails. *)
Lemma installDiff_equal_merged oldPkgJson newPkgJson s :
  allDeps oldPkgJson = allDeps newPkgJson →
  installDiff E oldPkgJson (Some newPkgJson) s = (Err AssertionError, s).
Proof.
  intros Heq. unfold installDiff. rewrite Heq.
  set (m := allDeps newPkgJson).
  assert (objectDiff m m = ∅) as ->.
  { apply map_eq. intros k. unfold objectDiff.
    rewrite lookup_merge, lookup_empty. unfold diffEntry.
    destruct (m !! k); simpl; [by rewrite decide_True|done]. }
  done.
Qed.

(** ** node_modules at startup *)

(** [checkNodeModules] is never fulfilled with a promise. *)
Lemma checkNodeModules_undefined force s p s' :
  checkNodeModules E force s = (Ok p, s') → p = None.
Proof.
  unfold checkNodeModules, exec.
  repeat (case_match; simplify_eq; try done); by intros [= <- <-].
Qed.

(** So the first pass never assigns [clearNodeModulesPromise]. *)
Lemma readAndHash_clearNodeModulesPromise config a s :
  clearNodeModulesPromise (readAndHash E config a s).2
    = clearNodeModulesPromise s.
Proof.
  unfold readAndHash, bind.
  destruct (run E (trace s) RsyncAvailable); [done|].
  set (s1 := set_rsyncAvailable _ _).
  destruct (checkNodeModules E (force a) s1) as [[p|e] s2] eqn:Hcheck.
  2:{ unfold checkNodeModules, exec in Hcheck.
      repeat (case_match; simplify_eq; try done). }
  pose proof (checkNodeModules_undefined _ _ _ _ Hcheck) as ->.
  assert (clearNodeModulesPromise s2 = clearNodeModulesPromise s) as <-.
  { unfold checkNodeModules, exec in Hcheck.
    repeat (case_match; simplify_eq; try done). }
  unfold readPackageFiles, reject, ret.
  repeat (case_match; simpl in *; simplify_eq; try done).
Qed.

(** C7, as the code has it by design.  When node_modules exists and
    [force] is set: with rsync available no removal is started and the
    directory is left for the sync; without rsync the removal is started
    at startup.  In the pull chain a pending [clearNodeModulesPromise] is
    awaited after the pull has resolved and before the tree is moved or
    synced, and is not awaited when the pull rejects. *)
Theorem checkNodeModules_force_removal hash b s :
  (run E (trace s) AccessNodeModules = None →
   (rsyncAvailable s = true →
    checkNodeModules E true s = (Ok None, log AccessNodeModules s)) ∧
   (rsyncAvailable s = false →
    trace (checkNodeModules E true s).2 =
      trace s ++ [AccessNodeModules; RemoveNodeModules])) ∧
  (∀ p,
     clearNodeModulesPromise s = Some p →
     run E (trace s) CreateCleanCwd = None →
     run E (trace s ++ [CreateCleanCwd]) (CreateCleanCacheDir b) = None →
     match run E (trace s ++ [CreateCleanCwd; CreateCleanCacheDir b])
             (Pull b hash) with
     | Some e =>
         (pullAttempt E hash b s).1 = Err (Ext e) ∧
         trace (pullAttempt E hash b s).2 =
           trace s ++ [CreateCleanCwd; CreateCleanCacheDir b; Pull b hash]
     | None =>
         trace (pullAttempt E hash b s).2 =
           trace s ++ [CreateCleanCwd; CreateCleanCacheDir b; Pull b hash;
                       AwaitClearNodeModules] ++
           match p with
           | Some _ => []
           | None => [RestoreCWD; if rsyncAvailable s then SyncDirs else Move]
           end
     end).
Proof.
  split.
  - intros Hacc. unfold checkNodeModules. rewrite Hacc. simpl. split.
    + by intros ->.
    + intros ->. unfold exec. simpl.
      destruct (run E _ RemoveNodeModules); simpl; by rewrite <- ?app_assoc.
  - intros p Hp Hcwd Hcache.
    unfold pullAttempt, bind, exec, awaitClearNodeModules, restoreCWD.
    rewrite Hcwd. simpl. rewrite Hcache. simpl.
    rewrite <- ?app_assoc. simpl.
    destruct (run E _ (Pull b hash)) as [e|]; simpl.
    { by rewrite <- ?app_assoc. }
    rewrite Hp. destruct p as [e|]; simpl.
    { by rewrite <- ?app_assoc. }
    destruct (rsyncAvailable s); simpl;
      case_match; simpl; by rewrite <- ?app_assoc.
Qed.

End Properties.


Lemma pullBackends_missed_prefix_witness :
  succeedsAt envS1 PKGJSONHash configS1 1 0 (start None)
    (pullBackends envS1 PKGJSONHash configS1 0 (start None)).2 ∧
  pullBackends envS1 PKGJSONHash configS1 0 (start None) =
    (Ok {| missingBackends := [B0] |},
     (pullBackends envS1 PKGJSONHash configS1 0 (start None)).2).
Proof.
  assert (succeedsAt envS1 PKGJSONHash configS1 1 0 (start None)
            (pullBackends envS1 PKGJSONHash configS1 0 (start None)).2) as Hk.
  { eapply succeedsAt_miss; [reflexivity|vm_compute; reflexivity|].
    eapply succeedsAt_hit; [reflexivity|vm_compute; reflexivity]. }
  split; [exact Hk|].
  exact (proj1 (pullBackends_missed_prefix envS1 PKGJSONHash configS1 1
                  (start None) _ Hk)).
Defined.

Lemma pullBackends_error_handling_witness :
  (pullBackends envS1 PKGJSONHash configS1 0 (start None) =
     pullBackends envS1 PKGJSONHash configS1 1
       (log RestoreCWD (pullAttempt envS1 PKGJSONHash B0 (start None)).2)) ∧
  (pullBackends envUnreachable PKGJSONHash configS1 0 (start None)).1 =
     Err (Ext (OtherError "ECONNREFUSED")) ∧
  (pullBackends envS2 PKGJSONHash configS2 0 (start None)).1 =
     Err BundlesNotFoundError.
Proof.
  split; [|split].
  - refine (proj1 (proj1 (pullBackends_error_handling envS1 PKGJSONHash
                            configS1) 0 B0 (start None) _ _ _));
      [reflexivity|vm_compute; reflexivity].
  - erewrite (proj1 (proj2 (pullBackends_error_handling envUnreachable
                              PKGJSONHash configS1)) 0 B0 (start None));
      [reflexivity|reflexivity|vm_compute; reflexivity|reflexivity].
  - erewrite (proj2 (proj2 (pullBackends_error_handling envS2 PKGJSONHash
                              configS2)) (start None));
      [reflexivity|].
    eapply exhausted_miss; [reflexivity|vm_compute; reflexivity|].
    eapply exhausted_end. reflexivity.
Defined.

Lemma pullOlderBundle_unchanged_revision_witness :
  pullOlderBundle envUnchanged configS3 PKGJSONHash None (start (Some 1)) =
    walkHistory envUnchanged configS3 (gitHistory envUnchanged) 2 1
      PKGJSONHash 0 (start (Some 1)) ∧
  pullOlderBundle envUnchanged configS3 PKGJSONHash None (start (Some 1)) =
    walkHistory envUnchanged configS3 [("fakePkgJson2", None)] 2 2
      PKGJSONHash 1 (skipRevisions 0 1 1 (start (Some 1))) ∧
  (pullOlderBundle envUnchanged configS3 PKGJSONHash None (start (Some 1))).1
    = Ok fakePkgJson2 ∧
  revisionsOf
    (trace (pullOlderBundle envUnchanged configS3 PKGJSONHash None
              (start (Some 1))).2) = [1; 2] ∧
  pullsOf
    (trace (pullOlderBundle envUnchanged configS3 PKGJSONHash None
              (start (Some 1))).2)
    = [(B0, Some (hashScenario fakePkgJson2 None ""))] ∧
  useGitHistory
    (pullOlderBundle envUnchanged configS3 PKGJSONHash None
       (start (Some 1))).2 = Some 2.
Proof.
  pose proof (pullOlderBundle_unchanged_revision envUnchanged configS3
                PKGJSONHash None (start (Some 1)) 1 eq_refl)
    as (Hwalk & _ & Hskip & _).
  split; [exact Hwalk|]. split.
  - apply (proj1 (Hskip 1 ltac:(intros; reflexivity) ltac:(simpl; lia)
                    ltac:(simpl; constructor; [|constructor];
                          exists PKGJSON, (hashScenario PKGJSON None "");
                          split; [vm_compute; reflexivity|reflexivity]))).
  - rewrite Hwalk. repeat split; vm_compute; reflexivity.
Defined.

Lemma install_mutates_depth_witness :
  useGitHistory
    (revisionAttempt envUnchanged configS3 PKGJSONHash None 0
       (start (Some 1))).2 = Some 2 ∧
  ∃ res s',
    install envUnchanged 2 configS3 firstPass (start (Some 1))
      = Some (res, s') ∧
    ∃ depth depth',
      useGitHistory (start (Some 1)) = Some depth ∧
      useGitHistory s' = Some depth' ∧ depth < depth'.
Proof.
  split.
  { refine (proj1 (proj2 (install_mutates_depth envUnchanged configS3))
              PKGJSONHash None 0 (start (Some 1)) 1 PKGJSON
              (hashScenario PKGJSON None "") _ _ _ _);
      [reflexivity|reflexivity|vm_compute; reflexivity|reflexivity]. }
  eexists _, _. split; [vm_compute; reflexivity|].
  eapply (proj2 (proj2 (install_mutates_depth envUnchanged configS3))
            2 firstPass (start (Some 1)));
    [vm_compute; reflexivity|vm_compute; reflexivity|reflexivity
    |intros; reflexivity|intros; reflexivity|vm_compute; reflexivity
    |reflexivity].
Defined.

Lemma install_rePull_bounded_witness :
  installPass envConflict (λ _ _, None) configS1 (secondPass PKGJSONHash)
    (start None)
  = installPass envConflict (λ _ s, Some (Ok tt, s)) configS1
      (secondPass PKGJSONHash) (start None) ∧
  pushBackends envConflict [B0] PKGJSONHash true (start None) =
    (Err (Ext BundleAlreadyExistsError), log (Push B0 PKGJSONHash) (start None)) ∧
  (fst <$> install envConflict 1 configS1 (secondPass PKGJSONHash)
             (start None))
    = Some (Err (Ext BundleAlreadyExistsError)).
Proof.
  pose proof (install_rePull_bounded envConflict configS1
                (secondPass PKGJSONHash) (start None))
    as (H1 & _ & _ & _ & _ & H6 & H7).
  split; [exact (H1 eq_refl _ _)|]. split.
  - apply H6; reflexivity.
  - erewrite (H7 0); [reflexivity|reflexivity|vm_compute; reflexivity
                     |right; discriminate|vm_compute; reflexivity].
Defined.

Lemma install_second_pass_witness :
  ∃ res s',
    install envS5 1 configS1 (secondPass PKGJSONHash) (start None)
      = Some (res, s') ∧
    onlyCalls (λ c, isFreshnessCall c = false ∧
                    ∀ b h, c = Push b h → h = PKGJSONHash) (start None) s'.
Proof.
  eexists _, _. split; [vm_compute; reflexivity|].
  eapply (proj2 (proj2 (install_second_pass envS5 configS1
                          (secondPass PKGJSONHash) (start None) eq_refl)) 1).
  vm_compute. reflexivity.
Defined.

Lemma install_BundlesNotFound_dispatch_witness :
  thenPull envNoRepo configNpm
    (pkgJsonPromise envNoRepo configNpm firstPass (start (Some 1)))
  = (Err BundlesNotFoundError,
     {| newPkgJson := Some PKGJSON; newPkgJsonHash := PKGJSONHash;
        missing := []; done := false |},
     log RestoreCWD
       (pullAttempt envNoRepo PKGJSONHash B0
          (readAndHash envNoRepo configNpm firstPass (start (Some 1))).2).2) ∧
  (fst <$> installPass envNoRepo (λ _ _, None) configNpm firstPass
             (start (Some 1)))
  = Some (Err (Ext NotAGitRepoError)).
Proof.
  assert (thenPull envNoRepo configNpm
            (pkgJsonPromise envNoRepo configNpm firstPass (start (Some 1)))
          = (Err BundlesNotFoundError,
             {| newPkgJson := Some PKGJSON; newPkgJsonHash := PKGJSONHash;
                missing := []; done := false |},
             log RestoreCWD
               (pullAttempt envNoRepo PKGJSONHash B0
                  (readAndHash envNoRepo configNpm firstPass
                     (start (Some 1))).2).2)) as Hst
    by (vm_compute; reflexivity).
  split; [exact Hst|].
  rewrite (proj1 (install_BundlesNotFound_dispatch envNoRepo (λ _ _, None)
                    configNpm firstPass (start (Some 1)) _ _ Hst)).
  vm_compute. reflexivity.
Defined.

(** C3 as the spec has it fails: the pull chain misses, the depth is
    positive, the project is not in a repository and fallbackToNpm is set,
    yet install rejects and npm is never run. *)
Lemma install_not_in_repo_no_fallback :
  (thenPull envNoRepo configNpm
     (pkgJsonPromise envNoRepo configNpm firstPass (start (Some 1)))).1.1
    = Err BundlesNotFoundError ∧
  fallbackToNpm configNpm = true ∧
  ∃ s', install envNoRepo 2 configNpm firstPass (start (Some 1))
          = Some (Err (Ext NotAGitRepoError), s') ∧
        IsGitRepo ∈ trace s' ∧
        NpmInstallAll ∉ trace s'.
Proof.
  split; [vm_compute; reflexivity|]. split; [reflexivity|].
  eexists. split; [vm_compute; reflexivity|].
  split; [vm_compute; set_solver|vm_compute; set_solver].
Qed.

Lemma installDiff_delta_witness :
  omitUndefined (objectDiff (allDeps fakePkgJson2) (allDeps PKGJSON)) !! "c"
    = Some "2.2.9" ∧
  trace (installDiff envS3 fakePkgJson2 (Some PKGJSON) (start None)).2 =
    [NpmInstall {["c" := "2.2.9"]}] ∧
  "c" ∈ keysUndefined
          (objectDiff (allDeps fakePkgJson2) (allDeps PKGJSONwithoutC)) ∧
  trace (installDiff envS3 PKGJSON (Some devA) (start None)).2 =
    [NpmInstall (omitUndefined (objectDiff (allDeps PKGJSON) (allDeps devA)));
     NpmUninstall (keysUndefined (objectDiff (allDeps PKGJSON) (allDeps devA)))].
Proof.
  pose proof (installDiff_delta envS3 fakePkgJson2 PKGJSON)
    as (_ & Hin & _ & _ & Htr & _).
  pose proof (installDiff_delta envS3 fakePkgJson2 PKGJSONwithoutC)
    as (_ & _ & Hun & _).
  pose proof (installDiff_delta envS3 PKGJSON devA)
    as (_ & _ & _ & _ & _ & Hboth).
  split; [|split; [|split]].
  - apply Hin. split; [vm_compute; reflexivity|vm_compute; discriminate].
  - rewrite Htr. vm_compute. reflexivity.
  - apply Hun. split; [eexists; vm_compute; reflexivity|vm_compute; reflexivity].
  - apply (Hboth (start None));
      [vm_compute; discriminate|vm_compute; discriminate|reflexivity].
Defined.

Lemma checkNodeModules_force_removal_witness :
  checkNodeModules envS6 true (set_rsyncAvailable true (start None)) =
    (Ok None, log AccessNodeModules (set_rsyncAvailable true (start None))) ∧
  trace (checkNodeModules envForcedMiss true (start None)).2 =
    [AccessNodeModules; RemoveNodeModules] ∧
  trace (pullAttempt envS6 PKGJSONHash B1
           (set_clearNodeModulesPromise None (start None))).2 =
    [CreateCleanCwd; CreateCleanCacheDir B1; Pull B1 PKGJSONHash;
     AwaitClearNodeModules; RestoreCWD; Move].
Proof.
  split; [|split].
  - apply (proj1 (checkNodeModules_force_removal envS6 PKGJSONHash B1
                    (set_rsyncAvailable true (start None))));
      reflexivity.
  - apply (proj1 (checkNodeModules_force_removal envForcedMiss PKGJSONHash B1
                    (start None)));
      reflexivity.
  - apply (proj2 (checkNodeModules_force_removal envS6 PKGJSONHash B1
                    (set_clearNodeModulesPromise None (start None)))
             None); reflexivity.
Defined.

(** C7 as the spec has it fails: node_modules exists, [force] is set and
    rsync is available; install succeeds without ever starting a removal,
    and syncs the pulled tree over the directory. *)
Lemma install_force_rsync_no_removal :
  run envS6 [RsyncAvailable] AccessNodeModules = None ∧
  force forced = true ∧
  ∃ s', install envS6 2 configS1 forced (start None) = Some (Ok tt, s') ∧
        (RemoveNodeModules ∉ trace s') ∧
        SyncDirs ∈ trace s'.
Proof.
  split; [reflexivity|]. split; [reflexivity|].
  eexists. split; [vm_compute; reflexivity|].
  split; vm_compute; set_solver.
Qed.

(** C8 at a failing input: the last revision moved package a from
    devDependencies to dependencies.  The fingerprints differ, the older
    bundle is pulled, the diff of the merged maps is empty, and install
    rejects with the failed assertion. *)
Lemma installDiff_unreachable_reached :
  hashScenario devA None "" ≠ hashScenario runtimeA None "" ∧
  omitUndefined (objectDiff (allDeps devA) (allDeps runtimeA)) = ∅ ∧
  keysUndefined (objectDiff (allDeps devA) (allDeps runtimeA)) = [] ∧
  (pullOlderBundle envMoved configS3 (Some (hashScenario runtimeA None ""))
     None (start (Some 1))).1 = Ok devA ∧
  (fst <$> install envMoved 2 configS3 firstPass (start (Some 1)))
    = Some (Err AssertionError).
Proof.
  split; [vm_compute; discriminate|].
  split; [vm_compute; reflexivity|].
  split; [vm_compute; reflexivity|].
  split; vm_compute; reflexivity.
Qed.

(** * The scenarios of the spec, run on the model *)

(** S1: the tree comes from B1; B0 is recorded as missed and is the only
    backend pushed to. *)
Example scenario_S1 :
  ∃ s', install envS1 2 configS1 firstPass (start None) = Some (Ok tt, s') ∧
        pullsOf (trace s') = [(B0, PKGJSONHash); (B1, PKGJSONHash)] ∧
        pushesOf (trace s') = [(B0, PKGJSONHash)].
Proof.
  eexists. split; [vm_compute; reflexivity|].
  split; vm_compute; reflexivity.
Qed.

(** S2: the chain is exhausted and nothing is configured to fall back on. *)
Example scenario_S2 :
  ∃ s', install envS2 2 configS2 firstPass (start None)
          = Some (Err BundlesNotFoundError, s') ∧
        npmCallsOf (trace s') = [] ∧ pushesOf (trace s') = [].
Proof.
  eexists. split; [vm_compute; reflexivity|].
  split; vm_compute; reflexivity.
Qed.

(** S3: the bundle of the second revision back is pulled and npm installs
    the one changed package. *)
Example scenario_S3 :
  ∃ s', install envS3 2 configS3 firstPass (start (Some 2)) = Some (Ok tt, s') ∧
        npmCallsOf (trace s') = [NpmInstall {["c" := "2.2.9"]}] ∧
        pushesOf (trace s') = [(B0, PKGJSONHash)].
Proof.
  eexists. split; [vm_compute; reflexivity|].
  split; vm_compute; reflexivity.
Qed.

(** S4: as S3, with package c gone from the current manifest. *)
Example scenario_S4 :
  ∃ s', install envS4 2 configS3 firstPass (start (Some 2)) = Some (Ok tt, s') ∧
        npmCallsOf (trace s') = [NpmUninstall ["c"]].
Proof.
  eexists. split; [vm_compute; reflexivity|]. vm_compute; reflexivity.
Qed.

(** S5: the push to B0 conflicts, the second pass pulls from B0 and pushes
    nothing more. *)
Example scenario_S5 :
  install envS5 1 configS1 firstPass (start None) = None ∧
  ∃ s', install envS5 2 configS1 firstPass (start None) = Some (Ok tt, s') ∧
        pullsOf (trace s') =
          [(B0, PKGJSONHash); (B1, PKGJSONHash); (B0, PKGJSONHash)] ∧
        pushesOf (trace s') = [(B0, PKGJSONHash)].
Proof.
  split; [vm_compute; reflexivity|].
  eexists. split; [vm_compute; reflexivity|].
  split; vm_compute; reflexivity.
Qed.

(** node_modules exists, [force] is set, rsync is not available and the
    pull misses: the removal has been made before the first pull, and
    install rejects. *)
Example forced_removal_then_miss :
  install envForcedMiss 2 configS2 forced (start None) =
    Some (Err BundlesNotFoundError,
          {| trace := [RsyncAvailable; AccessNodeModules; RemoveNodeModules;
                       ReadPkgJson; CreateCleanCwd; CreateCleanCacheDir B0;
                       Pull B0 PKGJSONHash; RestoreCWD];
             useGitHistory := None;
             clearNodeModulesPromise := None;
             rsyncAvailable := false |}).
Proof. vm_compute. reflexivity. Qed.

(** * Further properties of the code *)

Section Further.
Context (E : Env).

(** ** Startup *)

(** X1.  On a first pass without [force], an existing node_modules makes
    install reject with NodeModulesAlreadyExistError right after the check:
    nothing is removed, read, pulled or pushed. *)
Theorem install_node_modules_exist self config a s :
  rePull a = false →
  force a = false →
  run E (trace s) RsyncAvailable = None →
  run E (trace s ++ [RsyncAvailable]) AccessNodeModules = None →
  installPass E self config a s =
    Some (Err NodeModulesAlreadyExistError,
          log AccessNodeModules
            (set_rsyncAvailable (rsyncProbe E (trace s))
               (log RsyncAvailable s))) ∧
  trace (log AccessNodeModules
           (set_rsyncAvailable (rsyncProbe E (trace s))
              (log RsyncAvailable s))) =
    trace s ++ [RsyncAvailable; AccessNodeModules].
Proof.
  intros Hre Hforce Hprobe Hacc. split; [|simpl; by rewrite <- app_assoc].
  unfold installPass, pkgJsonPromise, readAndHash, bind, checkNodeModules.
  rewrite Hre, Hprobe. simpl. rewrite Hacc, Hforce. done.
Qed.

(** X11.  [checkNodeModules] asks once whether node_modules exists; it
    starts a removal exactly when the directory exists, [force] is set and
    rsync is not available; and it rejects with NodeModulesAlreadyExistError
    exactly when the directory exists and [force] is not set. *)
Theorem checkNodeModules_cases force s :
  let found := bool_decide (run E (trace s) AccessNodeModules = None) in
  trace (checkNodeModules E force s).2 =
    trace s ++ AccessNodeModules ::
      (if found && force && negb (rsyncAvailable s)
       then [RemoveNodeModules] else []) ∧
  ((checkNodeModules E force s).1 = Err NodeModulesAlreadyExistError ↔
   found = true ∧ force = false) ∧
  (found = false → (checkNodeModules E force s).1 = Ok None).
Proof.
  intros found. unfold found, checkNodeModules, exec. clear found.
  destruct (run E (trace s) AccessNodeModules) as [e|]; simpl.
  { rewrite ?bool_decide_eq_false_2 by done. simpl.
    split; [done|]. split; [|done]. split; [done|]. by intros [[=] _]. }
  rewrite ?bool_decide_eq_true_2 by done. simpl.
  destruct force; simpl.
  - destruct (rsyncAvailable s); simpl.
    + split; [done|]. split; [|done]. split; [done|]. by intros [_ [=]].
    + destruct (run E _ RemoveNodeModules); simpl;
        (split; [by rewrite <- app_assoc|]); (split; [|done]);
        (split; [done|]); by intros [_ [=]].
  - split; [done|]. split; [|done]. by split.
Qed.

(** ** The pull chain *)

Lemma inCleanCwd_snoc_RestoreCWD tr : inCleanCwd (tr ++ [RestoreCWD]) = false.
Proof. unfold inCleanCwd. by rewrite foldl_app. Qed.

Lemma pullAttempt_resolved_outside hash b s s' :
  pullAttempt E hash b s = (Ok tt, s') → inCleanCwd (trace s') = false.
Proof.
  unfold pullAttempt, bind, exec, awaitClearNodeModules, restoreCWD.
  repeat (case_match; simplify_eq; simpl in *; try done);
    intros [= <-]; simpl; unfold inCleanCwd;
    rewrite !foldl_app; done.
Qed.

(** X12.  However [pullBackends] settles, every scratch directory it
    entered has been left again: after its calls the process is not in a
    clean cwd, if it was not before. *)
Theorem pullBackends_restores_cwd hash config backendIndex s :
  inCleanCwd (trace s) = false →
  inCleanCwd (trace (pullBackends E hash config backendIndex s).2) = false.
Proof.
  unfold pullBackends. generalize (drop backendIndex (backends config)).
  intros rest. revert backendIndex s.
  induction rest as [|b rest IH]; intros backendIndex s Hs; simpl; [done|].
  destruct (pullAttempt E hash b s) as [[[]|e] s1] eqn:Hpull; simpl.
  - by eapply pullAttempt_resolved_outside.
  - destruct (isBundleNotFound e); simpl.
    + apply IH. apply inCleanCwd_snoc_RestoreCWD.
    + apply inCleanCwd_snoc_RestoreCWD.
Qed.

Lemma pullsOf_app tr1 tr2 : pullsOf (tr1 ++ tr2) = pullsOf tr1 ++ pullsOf tr2.
Proof. unfold pullsOf. apply omap_app. Qed.

Lemma pullAttempt_pulls hash b s :
  ∃ ps, pullsOf (trace (pullAttempt E hash b s).2) = pullsOf (trace s) ++ ps ∧
        (ps = [] ∨ ps = [(b, hash)]).
Proof.
  unfold pullAttempt, bind, exec, awaitClearNodeModules, restoreCWD.
  repeat (case_match; simplify_eq; simpl in *);
    rewrite ?pullsOf_app; simpl; rewrite <- ?app_assoc; simpl;
    first [by exists []; rewrite app_nil_r; auto
          |by exists [(b, hash)]; auto].
Qed.

(** X13.  The pulls of one run of the chain go through [config.backends]
    in order, from [backendIndex] on, every position at most once, all for
    the same hash. *)
Theorem pullBackends_pulls_in_order hash config backendIndex s :
  ∃ ps,
    pullsOf (trace (pullBackends E hash config backendIndex s).2) =
      pullsOf (trace s) ++ ps ∧
    ps `sublist_of` ((λ b, (b, hash)) <$> drop backendIndex (backends config)).
Proof.
  unfold pullBackends. generalize (drop backendIndex (backends config)).
  intros rest. revert backendIndex s.
  induction rest as [|b rest IH]; intros backendIndex s; simpl.
  { exists []. by rewrite app_nil_r. }
  destruct (pullAttempt_pulls hash b s) as (ps & Hps & Hcase).
  destruct (pullAttempt E hash b s) as [[[]|e] s1]; simpl in *.
  - exists ps. split; [done|].
    destruct Hcase as [->| ->]; [apply sublist_nil_l|].
    apply sublist_skip, sublist_nil_l.
  - assert (pullsOf (trace (log RestoreCWD s1)) = pullsOf (trace s) ++ ps)
      as Hs2 by (simpl; by rewrite pullsOf_app, Hps, app_nil_r).
    destruct (isBundleNotFound e); simpl.
    + destruct (IH (S backendIndex) (log RestoreCWD s1)) as (ps' & Hps' & Hsub).
      exists (ps ++ ps'). split; [by rewrite Hps', Hs2, app_assoc|].
      destruct Hcase as [->| ->]; simpl;
        [by apply sublist_cons|by apply sublist_skip].
    + exists ps. split; [done|].
      destruct Hcase as [->| ->]; [apply sublist_nil_l|].
      apply sublist_skip, sublist_nil_l.
Qed.

(** ** After the pull chain *)

(** When the chain has not resolved, [done] is unset and nothing is recorded
    as missed. *)
Lemma thenPull_rejected config a s e l s1 :
  thenPull E config (pkgJsonPromise E config a s) = (Err e, l, s1) →
  done l = false ∧ missing l = [].
Proof.
  unfold pkgJsonPromise, thenPull.
  destruct (rePull a).
  - destruct (pullBackends E _ config 0 s) as [[?|?] ?]; [done|].
    by intros [= _ <- _].
  - destruct (readAndHash E config a s) as [[[pkgJson hash]|e0] s0];
      [|by intros [= _ <- _]].
    destruct (pullBackends E _ config 0 s0) as [[?|?] ?]; [done|].
    by intros [= _ <- _].
Qed.

(** X2.  A rejection of the first-pass reads or of the pull chain that is
    not BundlesNotFound ends install: no history walk, no npm, no push.  It
    is passed on as it is, except that ENOENT on package.json becomes
    PkgJsonNotFoundError. *)
Theorem install_other_errors_fatal self config a s e l s1 :
  thenPull E config (pkgJsonPromise E config a s) = (Err e, l, s1) →
  isBundlesNotFound e = false →
  installPass E self config a s =
    Some (Err (if isPkgJsonENOENT e then PkgJsonNotFoundError else e), s1).
Proof.
  intros Hpull He. unfold installPass. rewrite Hpull.
  unfold catchBundlesNotFound. rewrite He.
  destruct (isPkgJsonENOENT e) eqn:Hen; simpl; [done|].
  by rewrite He.
Qed.

(** X6.  When the chain resolves at index [k], the pass makes no call to git
    or npm: with [k = 0] install resolves at once, without a push; otherwise
    it goes on with the push over the first [k] backends, for the hash that
    was pulled. *)
Theorem install_hit_pushes_missed self config a s l0 s0 k s1 :
  pkgJsonPromise E config a s = (Ok tt, l0, s0) →
  succeedsAt E (newPkgJsonHash l0) config k 0 s0 s1 →
  installPass E self config a s =
    if decide (k = 0) then Some (Ok tt, s1)
    else pushOrRePull E self (take k (backends config)) (newPkgJsonHash l0)
           a s1.
Proof.
  intros Hp Hk. unfold installPass. rewrite Hp. unfold thenPull.
  rewrite (succeedsAt_resolves E _ _ _ _ _ _ Hk). simpl.
  pose proof (succeedsAt_lt E _ _ _ _ _ _ Hk) as Hlt.
  rewrite length_take, Nat.min_l by lia.
  destruct k as [|k]; simpl; [done|].
  by destruct (backends config).
Qed.

(** X7.  After a fallback the push goes over all of [config.backends], for
    the hash of the current manifest: after a history walk that resolved,
    after a native install on a chain miss without history, and after a
    native install on a history walk that rejected with BundlesNotFound. *)
Theorem install_fallback_pushes_all self config a s l s1 :
  thenPull E config (pkgJsonPromise E config a s)
    = (Err BundlesNotFoundError, l, s1) →
  (∀ s2,
     useGitHistoryPositive s1 = true →
     tryOlderBundles E config (newPkgJson l) (newPkgJsonHash l) (lockfile a) s1
       = (Ok tt, s2) →
     installPass E self config a s =
       pushOrRePull E self (backends config) (newPkgJsonHash l) a s2) ∧
  (useGitHistoryPositive s1 = false →
   fallbackToNpm config = true →
   run E (trace s1) NpmInstallAll = None →
   installPass E self config a s =
     pushOrRePull E self (backends config) (newPkgJsonHash l) a
       (log NpmInstallAll s1)) ∧
  (∀ s2,
     useGitHistoryPositive s1 = true →
     tryOlderBundles E config (newPkgJson l) (newPkgJsonHash l) (lockfile a) s1
       = (Err BundlesNotFoundError, s2) →
     fallbackToNpm config = true →
     run E (trace s2) NpmInstallAll = None →
     installPass E self config a s =
       pushOrRePull E self (backends config) (newPkgJsonHash l) a
         (log NpmInstallAll s2)).
Proof.
  intros Hpull. destruct (thenPull_rejected _ _ _ _ _ _ Hpull) as [Hdone _].
  unfold installPass. rewrite Hpull.
  unfold catchBundlesNotFound. cbn [isBundlesNotFound].
  split; [|split].
  - intros s2 Hpos Htry. rewrite Hpos, Htry. simpl. by rewrite Hdone.
  - intros Hpos Hnpm Hrun. rewrite Hpos, Hnpm.
    unfold npmInstallAll, exec. rewrite Hrun. simpl. by rewrite Hdone.
  - intros s2 Hpos Htry Hnpm Hrun. rewrite Hpos, Htry.
    unfold catchFallbackToNpm. cbn [isBundlesNotFound]. rewrite Hnpm.
    unfold npmInstallAll, exec. rewrite Hrun. simpl. by rewrite Hdone.
Qed.

(** X10.  On a pass with [rePull] set, [newPkgJson] is never assigned, so
    the history fallback cannot resolve there: when the walk finds a bundle,
    [installDiff] throws on the undefined manifest and [tryOlderBundles]
    rejects with TypeError, after the older tree has been put in place. *)
Theorem tryOlderBundles_on_rePull config a s :
  rePull a = true →
  newPkgJson (pkgJsonPromise E config a s).1.2 = None ∧
  (∀ hash s1,
     (tryOlderBundles E config None hash (lockfile a) s1).1 ≠ Ok tt) ∧
  (∀ hash s1 oldPkgJson s2,
     run E (trace s1) IsGitRepo = None →
     pullOlderBundle E config hash (lockfile a) (log IsGitRepo s1)
       = (Ok oldPkgJson, s2) →
     tryOlderBundles E config None hash (lockfile a) s1 = (Err TypeError, s2)).
Proof.
  intros Hre. split; [unfold pkgJsonPromise; by rewrite Hre|]. split.
  - intros hash s1. unfold tryOlderBundles, bind, exec.
    destruct (run E (trace s1) IsGitRepo); [done|].
    by destruct (pullOlderBundle E config hash (lockfile a) _) as [[?|?] ?].
  - intros hash s1 oldPkgJson s2 Hrepo Hwalk.
    unfold tryOlderBundles, bind, exec. by rewrite Hrepo, Hwalk.
Qed.

(** ** The history walk *)

Lemma revisionsOf_app tr1 tr2 :
  revisionsOf (tr1 ++ tr2) = revisionsOf tr1 ++ revisionsOf tr2.
Proof. unfold revisionsOf. apply omap_app. Qed.

Lemma pullBackends_revisions hash config backendIndex s :
  revisionsOf (trace (pullBackends E hash config backendIndex s).2)
    = revisionsOf (trace s).
Proof.
  assert (PreOrder (λ s s' : State,
            revisionsOf (trace s') = revisionsOf (trace s))) as Hpre.
  { split; [done|]. intros s1 s2 s3 H12 H23. by rewrite H23. }
  apply (pullBackendsFrom_respects E
           (λ s s', revisionsOf (trace s') = revisionsOf (trace s))).
  intros c s0 Hc. simpl. rewrite revisionsOf_app.
  assert (revisionsOf [c] = []) as ->; [|by rewrite app_nil_r].
  destruct Hc as [->|(b & _ & Hc)]; [done|].
  repeat (apply elem_of_cons in Hc as [->|Hc]; [done|]).
  by apply elem_of_nil in Hc.
Qed.

(** One revision: one call to git, and a manifest that is the parsed
    revision when the attempt resolves. *)
Lemma revisionAttempt_revision config prevHash lockfile historyIndex s :
  revisionsOf
    (trace (revisionAttempt E config prevHash lockfile historyIndex s).2)
    = revisionsOf (trace s) ++ [historyIndex + 1] ∧
  ∀ oldPkgJson,
    (revisionAttempt E config prevHash lockfile historyIndex s).1.1
      = Ok oldPkgJson →
    ∃ hash, revisionHash E config historyIndex = Some (oldPkgJson, hash).
Proof.
  unfold revisionAttempt, olderRevision, bind, exec, revisionHash.
  replace (historyIndex + 1 - 1) with historyIndex by lia.
  assert (revisionsOf (trace (log (OlderRevision (historyIndex + 1)) s))
          = revisionsOf (trace s) ++ [historyIndex + 1]) as Hlog
    by (simpl; by rewrite revisionsOf_app).
  destruct (run E (trace s) _); simpl; [done|].
  destruct (gitHistory E !! historyIndex)
    as [[pkgJsonString lockfileString]|]; simpl; [|done].
  destruct (parseOlderLockfile E lockfileString) as [newLockfileContents|];
    simpl; [|done].
  destruct (parsePkgJson E pkgJsonString) as [|pkgJson]; simpl; [done|].
  case_decide; simpl.
  { by rewrite trace_incrementDepth. }
  pose proof (pullBackends_revisions
    (Some (calcHash E pkgJson newLockfileContents (packageHash config)))
    config 0 (log (OlderRevision (historyIndex + 1)) s)) as Hp.
  destruct (pullBackends E _ config 0 _) as [[?|?] s2]; simpl in *.
  - split; [by rewrite Hp|]. intros ? [= <-]. by eexists.
  - split; [by rewrite Hp|]. done.
Qed.

(** What a walk from [historyIndex] does to the depth and asks of git. *)
Lemma pullOlderBundleFuel_walk fuel config prevHash lockfile historyIndex
    s r s' depth :
  pullOlderBundleFuel E fuel config prevHash lockfile historyIndex s
    = Some (r, s') →
  useGitHistory s = Some depth →
  historyIndex ≤ depth + 1 →
  ∃ n depth',
    useGitHistory s' = Some depth' ∧
    depth ≤ depth' ∧
    depth' ≤ depth + (length (gitHistory E) - historyIndex) ∧
    revisionsOf (trace s') = revisionsOf (trace s) ++ seq (historyIndex + 1) n ∧
    match r with
    | Err e => e = BundlesNotFoundError ∧ historyIndex + n = depth' + 1
    | Ok oldPkgJson =>
        1 ≤ n ∧ historyIndex + n ≤ depth' + 1 ∧
        ∃ hash,
          revisionHash E config (historyIndex + n - 1) = Some (oldPkgJson, hash)
    end.
Proof.
  revert prevHash historyIndex s depth.
  induction fuel as [|fuel IH]; intros prevHash historyIndex s depth;
    simpl; [done|].
  intros Hwalk Hd Hidx. rewrite Hd in Hwalk.
  case_decide as Hlt.
  { injection Hwalk as <- <-. exists 0, depth. simpl.
    rewrite app_nil_r. repeat split; try done; lia. }
  pose proof (revisionAttempt_depth E config prevHash lockfile historyIndex
                s depth Hd) as Hdepth.
  destruct (revisionAttempt_revision config prevHash lockfile historyIndex s)
    as [Hrev Hok].
  destruct (revisionAttempt E config prevHash lockfile historyIndex s)
    as [[[oldPkgJson|e] newHash] s1]; simpl in *.
  - injection Hwalk as <- <-.
    destruct (Hok oldPkgJson eq_refl) as [hash Hhash].
    exists 1. destruct Hdepth as [Hd1|[Hd1 Hlen]]; eexists;
      (split; [exact Hd1|]); simpl; rewrite Hrev;
      replace (historyIndex + 1 - 1) with historyIndex by lia;
      repeat split; try done; try lia; by exists hash.
  - assert (∃ depth1, useGitHistory s1 = Some depth1 ∧ depth ≤ depth1 ∧
              depth1 + (length (gitHistory E) - S historyIndex)
                ≤ depth + (length (gitHistory E) - historyIndex))
      as (depth1 & Hd1 & Hle & Hbound).
    { destruct Hdepth as [Hd1|[Hd1 Hlen]]; eexists; (split; [exact Hd1|]); lia. }
    destruct (IH _ _ _ _ Hwalk Hd1) as (n & depth' & Hd' & Hle' & Hb' & Hrev' & Hr);
      [lia|].
    exists (S n), depth'. split; [done|]. split; [lia|]. split; [lia|].
    split.
    { rewrite Hrev', Hrev, <- app_assoc. simpl.
      by replace (historyIndex + 1) with (S historyIndex) by lia. }
    destruct r as [oldPkgJson|e'].
    + destruct Hr as (Hn & Hin & hash & Hhash). split; [lia|]. split; [lia|].
      exists hash.
      by replace (historyIndex + S n - 1) with (S historyIndex + n - 1) by lia.
    + destruct Hr as [-> Hn]. split; [done|]. lia.
Qed.

Lemma pullOlderBundle_walk config prevHash lockfile s r s' depth :
  pullOlderBundle E config prevHash lockfile s = (r, s') →
  useGitHistory s = Some depth →
  ∃ n depth',
    useGitHistory s' = Some depth' ∧
    depth ≤ depth' ∧
    depth' ≤ depth + length (gitHistory E) ∧
    revisionsOf (trace s') = revisionsOf (trace s) ++ seq 1 n ∧
    match r with
    | Err e => e = BundlesNotFoundError ∧ n = depth' + 1
    | Ok oldPkgJson =>
        1 ≤ n ∧ n ≤ depth' + 1 ∧
        ∃ hash, revisionHash E config (n - 1) = Some (oldPkgJson, hash)
    end.
Proof.
  intros Hwalk Hd.
  pose proof (pullOlderBundleFuel_enough E (walkFuel E s) config prevHash
                lockfile s (Nat.le_refl _)) as Hfuel.
  rewrite Hwalk in Hfuel.
  destruct (pullOlderBundleFuel_walk _ _ _ _ _ _ _ _ _ Hfuel Hd)
    as (n & depth' & Hd' & Hle & Hb & Hrev & Hr); [lia|].
  exists n, depth'. rewrite Nat.sub_0_r in Hb. by repeat split.
Qed.

(** X3.  The walk never passes on what went wrong at a revision: whatever
    git, the parsers or a backend rejected with, [pullOlderBundle] (with
    [useGitHistory] configured) rejects with BundlesNotFoundError only. *)
Theorem pullOlderBundle_rejects_with_BundlesNotFound config prevHash lockfile
    s e s' :
  is_Some (useGitHistory s) →
  pullOlderBundle E config prevHash lockfile s = (Err e, s') →
  e = BundlesNotFoundError.
Proof.
  intros [depth Hd] Hwalk.
  destruct (pullOlderBundle_walk _ _ _ _ _ _ _ Hwalk Hd)
    as (n & depth' & _ & _ & _ & _ & He & _). done.
Qed.

(** X4.  The walk asks git for the revisions 1, 2, 3, ... back, one after
    the other.  When it rejects it has asked for one revision more than the
    depth it leaves in the config; when it resolves, it resolves with the
    manifest of the last revision it asked for. *)
Theorem pullOlderBundle_revisions_read config prevHash lockfile s r s' depth :
  useGitHistory s = Some depth →
  pullOlderBundle E config prevHash lockfile s = (r, s') →
  ∃ n depth',
    useGitHistory s' = Some depth' ∧
    revisionsOf (trace s') = revisionsOf (trace s) ++ seq 1 n ∧
    match r with
    | Err _ => n = depth' + 1
    | Ok oldPkgJson =>
        1 ≤ n ∧ n ≤ depth' + 1 ∧
        ∃ hash, revisionHash E config (n - 1) = Some (oldPkgJson, hash)
    end.
Proof.
  intros Hd Hwalk.
  destruct (pullOlderBundle_walk _ _ _ _ _ _ _ Hwalk Hd)
    as (n & depth' & Hd' & _ & _ & Hrev & Hr).
  exists n, depth'. split; [done|]. split; [done|].
  destruct r; [done|]. by destruct Hr.
Qed.

(** X5.  A walk raises the depth in the caller's config by at most the
    number of revisions in the history of the manifest. *)
Theorem pullOlderBundle_depth_bound config prevHash lockfile s r s' depth :
  useGitHistory s = Some depth →
  pullOlderBundle E config prevHash lockfile s = (r, s') →
  ∃ depth',
    useGitHistory s' = Some depth' ∧
    depth ≤ depth' ∧ depth' ≤ depth + length (gitHistory E).
Proof.
  intros Hd Hwalk.
  destruct (pullOlderBundle_walk _ _ _ _ _ _ _ Hwalk Hd)
    as (n & depth' & Hd' & Hle & Hb & _).
  by exists depth'.
Qed.

(** ** The delta installer *)

Lemma omitUndefined_lookup_None (lhs rhs : Deps) k :
  omitUndefined (objectDiff lhs rhs) !! k = None ↔
  rhs !! k = None ∨ lhs !! k = rhs !! k.
Proof.
  unfold omitUndefined, objectDiff. rewrite lookup_omap, lookup_merge.
  unfold diffEntry.
  destruct (lhs !! k) as [u|], (rhs !! k) as [w|]; simpl;
    try case_decide; simpl; naive_solver.
Qed.

(** Overwriting [lhs] with what is to be installed and dropping what is to
    be uninstalled gives [rhs]. *)
Lemma objectDiff_apply (lhs rhs : Deps) :
  omitUndefined (objectDiff lhs rhs) ∪
    filter (λ kv, kv.1 ∉ keysUndefined (objectDiff lhs rhs)) lhs = rhs.
Proof.
  apply map_eq. intros k. apply option_eq. intros v.
  rewrite lookup_union_Some_raw, omitUndefined_lookup,
    omitUndefined_lookup_None, map_lookup_filter_Some.
  simpl. rewrite keysUndefined_elem.
  destruct (lhs !! k) as [u|] eqn:Hl, (rhs !! k) as [w|] eqn:Hr;
    split; try naive_solver.
  intros [= ->]. destruct (decide (u = v)) as [->|Hne].
  - right. split; [by right|]. split; [done|]. by intros [_ [=]].
  - left. split; [done|]. by intros [=].
Qed.

Lemma installDiff_nothing_to_do (lhs rhs : Deps) :
  omitUndefined (objectDiff lhs rhs) = ∅ →
  keysUndefined (objectDiff lhs rhs) = [] →
  lhs = rhs.
Proof.
  intros Hti Htu. rewrite <- (objectDiff_apply lhs rhs), Hti, Htu.
  rewrite (left_id_L ∅ (∪)). symmetry. apply map_filter_id.
  intros k v _. simpl. apply not_elem_of_nil.
Qed.

(** X8.  The two sets that [installDiff] hands to npm reconcile the
    manifests: the old merged map, overwritten with [depsToInstall] and
    with the keys of [depsToUninstall] dropped, is the new merged map; and
    no package is in both sets. *)
Theorem installDiff_reconciles oldPkgJson newPkgJson :
  let depsDiff := objectDiff (allDeps oldPkgJson) (allDeps newPkgJson) in
  omitUndefined depsDiff ∪
    filter (λ kv, kv.1 ∉ keysUndefined depsDiff) (allDeps oldPkgJson)
    = allDeps newPkgJson ∧
  (∀ k, k ∈ keysUndefined depsDiff → omitUndefined depsDiff !! k = None).
Proof.
  intros depsDiff. split; [apply objectDiff_apply|].
  intros k Hk. apply keysUndefined_elem in Hk as [_ Hk].
  apply omitUndefined_lookup_None. by left.
Qed.

(** X9.  [installDiff] rejects with the failed assertion exactly when the
    two manifests have the same merged dependency map, and then it has made
    no call to npm. *)
Theorem installDiff_assertion_iff oldPkgJson newPkgJson s :
  ((installDiff E oldPkgJson (Some newPkgJson) s).1 = Err AssertionError ↔
   allDeps oldPkgJson = allDeps newPkgJson) ∧
  (allDeps oldPkgJson = allDeps newPkgJson →
   (installDiff E oldPkgJson (Some newPkgJson) s).2 = s).
Proof.
  split; [split|].
  - unfold installDiff.
    set (ti := omitUndefined _). set (tu := keysUndefined _).
    destruct (Nat.eqb_spec (size ti) 0) as [Hti|Hti]; simpl.
    + destruct (Nat.eqb_spec (length tu) 0) as [Htu|Htu]; simpl.
      * intros _. apply installDiff_nothing_to_do.
        -- by apply map_size_empty_iff.
        -- by apply nil_length_inv.
      * unfold exec. by destruct (run E (trace s) _).
    + unfold bind, exec. destruct (run E (trace s) _); [done|].
      destruct (negb _); [|done]. by destruct (run E _ _).
  - intros Heq. by rewrite installDiff_equal_merged.
  - intros Heq. by rewrite installDiff_equal_merged.
Qed.

(** ** The calls of a whole install *)

(** The first-pass reads make freshness calls only, none of them twice. *)
Lemma readAndHash_calls config a s :
  ∃ pre,
    trace (readAndHash E config a s).2 = trace s ++ pre ∧
    Forall (λ c, isFreshnessCall c = true) pre ∧
    NoDup pre.
Proof.
  unfold readAndHash, bind, checkNodeModules, readPackageFiles, exec, reject,
    ret.
  repeat (case_match; simplify_eq; simpl in *);
    rewrite <- ?app_assoc; simpl;
    (eexists; split; [reflexivity|]; split;
     [repeat constructor|repeat (constructor; [set_solver|]); constructor]).
Qed.

Lemma pkgJsonPromise_calls config a s :
  ∃ pre,
    trace (pkgJsonPromise E config a s).2 = trace s ++ pre ∧
    Forall (λ c, isFreshnessCall c = true) pre ∧
    NoDup pre.
Proof.
  unfold pkgJsonPromise. destruct (rePull a); simpl.
  { exists []. rewrite app_nil_r. split; [done|]. split; constructor. }
  destruct (readAndHash_calls config a s) as (pre & Hpre & Hfresh & Hnodup).
  exists pre.
  by destruct (readAndHash E config a s) as [[[pkgJson hash]|e] s0].
Qed.

(** A pass calls [install] with [rePull] set, if at all. *)
Lemma installPass_self_rePull self config a s :
  installPass E self config a s =
  installPass E (λ a' s0, if rePull a' then self a' s0 else None) config a s.
Proof.
  destruct (installPass_cases E config a s)
    as [[res Hres]|[_ (hash & s1 & Hs1)]].
  - by rewrite !Hres.
  - by rewrite !Hs1.
Qed.

Lemma install_rePull_calls fuel config a s res s' :
  rePull a = true →
  install E fuel config a s = Some (res, s') →
  onlyCalls (λ c, isFreshnessCall c = false) s s'.
Proof.
  intros Hre. destruct fuel as [|fuel]; [done|]. simpl.
  rewrite (installPass_rePull E _ (λ _ _, None)) by done.
  unfold installPass, pkgJsonPromise. rewrite Hre.
  apply (afterPkgJsonPromise_respects E
           (onlyCalls (λ c, isFreshnessCall c = false))).
  - intros c s0 Hc _. by apply onlyCalls_log.
  - intros s0. exists []. by rewrite trace_incrementDepth, app_nil_r.
  - intros b s0. by apply onlyCalls_log.
  - done.
Qed.

(** X15.  However install ends, and whether or not it re-enters, its
    freshness calls (rsync probe, node_modules check and removal, reads of
    the manifest and the lockfile) come before all its other calls, and
    none of them is made twice. *)
Theorem install_freshness_first fuel config a s res s' :
  install E fuel config a s = Some (res, s') →
  ∃ pre rest,
    trace s' = trace s ++ pre ++ rest ∧
    Forall (λ c, isFreshnessCall c = true) pre ∧
    NoDup pre ∧
    Forall (λ c, isFreshnessCall c = false) rest.
Proof.
  destruct fuel as [|fuel]; [done|]. simpl.
  rewrite installPass_self_rePull. unfold installPass.
  destruct (pkgJsonPromise_calls config a s) as (pre & Hpre & Hfresh & Hnodup).
  destruct (pkgJsonPromise E config a s) as [[r0 l0] s0]. simpl in Hpre.
  intros Hrest.
  apply (afterPkgJsonPromise_respects E
           (onlyCalls (λ c, isFreshnessCall c = false))) in Hrest.
  - destruct Hrest as (rest & Hrest & Hother). exists pre, rest.
    split; [by rewrite Hrest, Hpre, app_assoc|done].
  - intros c s1 Hc _. by apply onlyCalls_log.
  - intros s1. exists []. by rewrite trace_incrementDepth, app_nil_r.
  - intros b s1. by apply onlyCalls_log.
  - intros a' s1 res1 s1'. destruct (rePull a') eqn:Hre; [|done].
    by apply install_rePull_calls.
Qed.

#[local] Instance noGit_preorder : PreOrder noGit.
Proof.
  split.
  - intros s. split; [done|reflexivity].
  - intros s1 s2 s3 [Hd1 Hc1] [Hd2 Hc2]. split; [congruence|by etrans].
Qed.

Lemma noGit_log c s : isGitCall c = false → noGit s (log c s).
Proof. intros Hc. split; [done|by apply onlyCalls_log]. Qed.

Lemma installPass_noGit self config a s res s' :
  (∀ a' s0 res0 s0',
     useGitHistoryPositive s0 = false →
     self a' s0 = Some (res0, s0') → noGit s0 s0') →
  useGitHistoryPositive s = false →
  installPass E self config a s = Some (res, s') →
  noGit s s'.
Proof.
  intros Hself Hpos.
  assert (∀ s0, noGit s s0 → useGitHistoryPositive s0 = false) as Hkeep.
  { intros s0 [Hd _]. unfold useGitHistoryPositive in *. by rewrite Hd. }
  unfold installPass.
  (* the reads *)
  assert (noGit s (pkgJsonPromise E config a s).2) as H0.
  { destruct (pkgJsonPromise_calls config a s) as (pre & Hpre & Hfresh & _).
    split.
    - unfold pkgJsonPromise. destruct (rePull a); [done|].
      pose proof (readAndHash_depth E config a s) as Hd.
      by destruct (readAndHash E config a s) as [[[? ?]|?] ?].
    - exists pre. split; [done|]. eapply Forall_impl; [exact Hfresh|].
      by intros []. }
  destruct (pkgJsonPromise E config a s) as [[r0 l0] s0]. simpl in H0.
  (* the chain *)
  assert (noGit s (thenPull E config (r0, l0, s0)).2) as H1.
  { unfold thenPull. destruct r0 as [[]|e]; [|done].
    pose proof (pullBackendsFrom_respects E noGit (newPkgJsonHash l0) config
                  (drop 0 (backends config)) 0) as Hp.
    lapply Hp; [clear Hp; intros Hp|].
    2:{ intros c s1 Hc. apply noGit_log.
        destruct Hc as [->|(b & _ & Hc)]; [done|].
        repeat (apply elem_of_cons in Hc as [->|Hc]; [done|]).
        by apply elem_of_nil in Hc. }
    specialize (Hp s0). unfold pullBackends.
    destruct (pullBackendsFrom E _ config _ 0 s0) as [[?|?] ?]; simpl in *;
      by etrans. }
  destruct (thenPull E config (r0, l0, s0)) as [[r1 l1] s1]. simpl in H1.
  (* the first catch: the depth is not positive, so no walk *)
  assert (noGit s (catchBundlesNotFound E config a (r1, l1, s1)).2) as H2.
  { unfold catchBundlesNotFound. destruct r1 as [[]|e]; [done|].
    destruct (isBundlesNotFound e); [|by destruct (isPkgJsonENOENT e)].
    rewrite (Hkeep _ H1).
    destruct (fallbackToNpm config); [|done].
    unfold npmInstallAll, exec.
    destruct (run E (trace s1) NpmInstallAll); simpl;
      (etrans; [exact H1|by apply noGit_log]). }
  destruct (catchBundlesNotFound E config a (r1, l1, s1)) as [[r2 l2] s2].
  simpl in H2.
  (* the second catch *)
  assert (noGit s (catchFallbackToNpm E config (r2, l2, s2)).2) as H3.
  { unfold catchFallbackToNpm. destruct r2 as [[]|e]; [done|].
    destruct (_ && _); [|done].
    unfold npmInstallAll, exec.
    destruct (run E (trace s2) NpmInstallAll); simpl;
      (etrans; [exact H2|by apply noGit_log]). }
  destruct (catchFallbackToNpm E config (r2, l2, s2)) as [[r3 l3] s3].
  simpl in H3.
  (* the push *)
  unfold thenPush. destruct r3 as [[]|e]; [|by intros [= <- <-]].
  assert (∀ targets, pushOrRePull E self targets (newPkgJsonHash l3) a s3
                     = Some (res, s') → noGit s s') as Hp.
  { intros targets. unfold pushOrRePull.
    pose proof (pushBackends_respects E noGit targets (newPkgJsonHash l3)
                  (rePull a)) as Hb.
    specialize (Hb ltac:(intros; by apply noGit_log) s3).
    destruct (pushBackends E targets _ _ s3) as [[[]|e] s4]; simpl in Hb.
    - intros [= <- <-]. by etrans.
    - assert (noGit s s4) as H4 by (by etrans).
      destruct (isRePullNeeded e); [|by intros [= <- <-]].
      intros Hre. apply Hself in Hre; [by etrans|by apply Hkeep]. }
  destruct (done l3); [destruct (negb _)|]; try apply Hp.
  by intros [= <- <-].
Qed.

(** X14.  Without [useGitHistory], or with a depth of 0, install makes no
    call to git and leaves the depth as it is, whatever else happens. *)
Theorem install_no_git_without_depth fuel config a s res s' :
  useGitHistoryPositive s = false →
  install E fuel config a s = Some (res, s') →
  useGitHistory s' = useGitHistory s ∧
  onlyCalls (λ c, isGitCall c = false) s s'.
Proof.
  revert a s res s'. induction fuel as [|fuel IH]; intros a s res s' Hpos;
    [done|].
  simpl. apply installPass_noGit; [|done].
  intros a' s0 res0 s0' Hpos0. by apply IH.
Qed.

End Further.

Lemma install_node_modules_exist_witness :
  (fst <$> installPass envForcedMiss (λ _ _, None) configS2 firstPass
             (start None))
  = Some (Err NodeModulesAlreadyExistError).
Proof.
  rewrite (proj1 (install_node_modules_exist envForcedMiss (λ _ _, None)
                    configS2 firstPass (start None)
                    eq_refl eq_refl eq_refl eq_refl)).
  reflexivity.
Defined.

Lemma checkNodeModules_cases_witness :
  trace (checkNodeModules envForcedMiss true (start None)).2 =
    [AccessNodeModules; RemoveNodeModules] ∧
  (checkNodeModules envForcedMiss false (start None)).1 =
    Err NodeModulesAlreadyExistError ∧
  (checkNodeModules envS1 true (start None)).1 = Ok None.
Proof.
  split; [|split].
  - exact (proj1 (checkNodeModules_cases envForcedMiss true (start None))).
  - apply (proj1 (proj2 (checkNodeModules_cases envForcedMiss false
                           (start None)))).
    split; reflexivity.
  - apply (proj2 (proj2 (checkNodeModules_cases envS1 true (start None)))).
    reflexivity.
Defined.

Lemma pullBackends_restores_cwd_witness :
  inCleanCwd (trace (start None)) = false ∧
  inCleanCwd
    (trace (pullBackends envS1 PKGJSONHash configS1 0 (start None)).2) = false.
Proof.
  split; [reflexivity|].
  apply (pullBackends_restores_cwd envS1 PKGJSONHash configS1 0 (start None)).
  reflexivity.
Defined.

Lemma install_other_errors_fatal_witness :
  (fst <$> installPass envNoManifest (λ _ _, None) configS2 firstPass
             (start None))
  = Some (Err PkgJsonNotFoundError) ∧
  (fst <$> installPass envUnreachable (λ _ _, None) configS2 firstPass
             (start None))
  = Some (Err (Ext (OtherError "ECONNREFUSED"))).
Proof.
  split.
  - eassert (thenPull envNoManifest configS2
               (pkgJsonPromise envNoManifest configS2 firstPass (start None))
             = (Err _, _, _)) as Hpull by (vm_compute; reflexivity).
    rewrite (install_other_errors_fatal envNoManifest (λ _ _, None) configS2
               firstPass (start None) _ _ _ Hpull eq_refl).
    reflexivity.
  - eassert (thenPull envUnreachable configS2
               (pkgJsonPromise envUnreachable configS2 firstPass (start None))
             = (Err _, _, _)) as Hpull by (vm_compute; reflexivity).
    rewrite (install_other_errors_fatal envUnreachable (λ _ _, None) configS2
               firstPass (start None) _ _ _ Hpull eq_refl).
    reflexivity.
Defined.

Lemma install_hit_pushes_missed_witness :
  (fst <$> installPass envS1 (λ _ _, None) configS1 firstPass (start None))
  = Some (Ok tt).
Proof.
  assert (pkgJsonPromise envS1 configS1 firstPass (start None)
          = (Ok tt,
             {| newPkgJson := Some PKGJSON; newPkgJsonHash := PKGJSONHash;
                missing := []; done := false |},
             (readAndHash envS1 configS1 firstPass (start None)).2)) as Hp
    by (vm_compute; reflexivity).
  eassert (succeedsAt envS1 PKGJSONHash configS1 1 0
             (readAndHash envS1 configS1 firstPass (start None)).2 _) as Hk.
  { eapply succeedsAt_miss; [reflexivity|vm_compute; reflexivity|].
    eapply succeedsAt_hit; [reflexivity|vm_compute; reflexivity]. }
  rewrite (install_hit_pushes_missed envS1 (λ _ _, None) configS1 firstPass
             (start None) _ _ 1 _ Hp Hk).
  vm_compute. reflexivity.
Defined.

Lemma install_fallback_pushes_all_witness :
  (fst <$> installPass envS2 (λ _ _, None) configNpm firstPass (start None))
  = Some (Ok tt) ∧
  (fst <$> installPass envS3 (λ _ _, None) configS3 firstPass
             (start (Some 2)))
  = Some (Ok tt).
Proof.
  split.
  - eassert (thenPull envS2 configNpm
               (pkgJsonPromise envS2 configNpm firstPass (start None))
             = (Err BundlesNotFoundError, _, _)) as Hpull
      by (vm_compute; reflexivity).
    rewrite (proj1 (proj2 (install_fallback_pushes_all envS2 (λ _ _, None)
                             configNpm firstPass (start None) _ _ Hpull))
               eq_refl eq_refl eq_refl).
    vm_compute. reflexivity.
  - eassert (thenPull envS3 configS3
               (pkgJsonPromise envS3 configS3 firstPass (start (Some 2)))
             = (Err BundlesNotFoundError, _, _)) as Hpull
      by (vm_compute; reflexivity).
    erewrite (proj1 (install_fallback_pushes_all envS3 (λ _ _, None)
                       configS3 firstPass (start (Some 2)) _ _ Hpull) _
                eq_refl);
      [vm_compute; reflexivity|vm_compute; reflexivity].
Defined.

Lemma tryOlderBundles_on_rePull_witness :
  (tryOlderBundles envS3 configS3 None PKGJSONHash None (start (Some 2))).1
  = Err TypeError.
Proof.
  eassert (pullOlderBundle envS3 configS3 PKGJSONHash None
             (log IsGitRepo (start (Some 2))) = (Ok _, _)) as Hwalk
    by (vm_compute; reflexivity).
  exact (f_equal fst
           (proj2 (proj2 (tryOlderBundles_on_rePull envS3 configS3
                            (secondPass PKGJSONHash) (start (Some 2)) eq_refl))
              PKGJSONHash (start (Some 2)) _ _ eq_refl Hwalk)).
Defined.

Lemma pullOlderBundle_rejects_with_BundlesNotFound_witness :
  pullsOf
    (trace (pullOlderBundle envUnreachableHistory configS2 PKGJSONHash None
              (start (Some 1))).2) ≠ [] ∧
  (pullOlderBundle envUnreachableHistory configS2 PKGJSONHash None
     (start (Some 1))).1 = Err BundlesNotFoundError.
Proof.
  split; [vm_compute; discriminate|].
  destruct (pullOlderBundle envUnreachableHistory configS2 PKGJSONHash None
              (start (Some 1))) as [[oldPkgJson|e] s'] eqn:Hwalk.
  - vm_compute in Hwalk. discriminate.
  - simpl. f_equal.
    apply (pullOlderBundle_rejects_with_BundlesNotFound envUnreachableHistory
             configS2 PKGJSONHash None (start (Some 1)) e s');
      [by eexists|exact Hwalk].
Defined.

Lemma pullOlderBundle_revisions_read_witness :
  ∃ r s',
    pullOlderBundle envS3 configS3 PKGJSONHash None (start (Some 2)) = (r, s') ∧
    ∃ n depth',
      useGitHistory s' = Some depth' ∧
      revisionsOf (trace s') = revisionsOf (trace (start (Some 2))) ++ seq 1 n ∧
      match r with
      | Err _ => n = depth' + 1
      | Ok oldPkgJson =>
          1 ≤ n ∧ n ≤ depth' + 1 ∧
          ∃ hash, revisionHash envS3 configS3 (n - 1) = Some (oldPkgJson, hash)
      end.
Proof.
  eexists _, _. split; [vm_compute; reflexivity|].
  eapply (pullOlderBundle_revisions_read envS3 configS3 PKGJSONHash None
            (start (Some 2)) _ _ 2); [reflexivity|vm_compute; reflexivity].
Defined.

Lemma pullOlderBundle_depth_bound_witness :
  ∃ r s',
    pullOlderBundle envUnchanged configS3 PKGJSONHash None (start (Some 1))
      = (r, s') ∧
    ∃ depth',
      useGitHistory s' = Some depth' ∧
      1 ≤ depth' ∧ depth' ≤ 1 + length (gitHistory envUnchanged).
Proof.
  eexists _, _. split; [vm_compute; reflexivity|].
  eapply (pullOlderBundle_depth_bound envUnchanged configS3 PKGJSONHash None
            (start (Some 1)) _ _ 1); [reflexivity|vm_compute; reflexivity].
Defined.

Lemma installDiff_reconciles_witness :
  omitUndefined (objectDiff (allDeps fakePkgJson2) (allDeps PKGJSONwithoutC))
    !! "c" = None.
Proof.
  apply (proj2 (installDiff_reconciles fakePkgJson2 PKGJSONwithoutC) "c").
  assert (keysUndefined
            (objectDiff (allDeps fakePkgJson2) (allDeps PKGJSONwithoutC))
          = ["c"]) as -> by (vm_compute; reflexivity).
  apply list_elem_of_here.
Defined.

Lemma installDiff_assertion_iff_witness :
  (installDiff envMoved devA (Some runtimeA) (start None)).1
    = Err AssertionError ∧
  (installDiff envMoved devA (Some runtimeA) (start None)).2 = start None.
Proof.
  assert (allDeps devA = allDeps runtimeA) as Heq by (vm_compute; reflexivity).
  split.
  - exact (proj2 (proj1 (installDiff_assertion_iff envMoved devA runtimeA
                           (start None))) Heq).
  - exact (proj2 (installDiff_assertion_iff envMoved devA runtimeA
                    (start None)) Heq).
Defined.

Lemma install_no_git_without_depth_witness :
  ∃ res s',
    install envS2 2 configNpm firstPass (start (Some 0)) = Some (res, s') ∧
    useGitHistory s' = useGitHistory (start (Some 0)) ∧
    onlyCalls (λ c, isGitCall c = false) (start (Some 0)) s'.
Proof.
  eexists _, _. split; [vm_compute; reflexivity|].
  eapply (install_no_git_without_depth envS2 2 configNpm firstPass
            (start (Some 0))); [reflexivity|vm_compute; reflexivity].
Defined.

Lemma install_freshness_first_witness :
  ∃ res s',
    install envS5 2 configS1 firstPass (start None) = Some (res, s') ∧
    ∃ pre rest,
      trace s' = trace (start None) ++ pre ++ rest ∧
      Forall (λ c, isFreshnessCall c = true) pre ∧
      NoDup pre ∧
      Forall (λ c, isFreshnessCall c = false) rest.
Proof.
  eexists _, _. split; [vm_compute; reflexivity|].
  eapply (install_freshness_first envS5 2 configS1 firstPass (start None)).
  vm_compute. reflexivity.
Defined.
